(** * Comic Vibe Tracker: the derived-view pipeline of [src/src/App.jsx]

    The development embeds the item pipeline of the tracker: the snapshot
    normaliser ([onSnapshot]), the three write handlers ([handleAddItem],
    [handleUpdateChapter], [handleSaveEdit]), the sort step of
    [sortedAndFilteredItems] and the guard of [handleSearch]; then the
    rest of the view and of the components around them: the two filters of
    [sortedAndFilteredItems], the sort button, the -1 button of
    [TrackingCard], [StarRatingInput], the form of [EditModal], the end of
    [handleSearch] and [getUserCollectionPath].

    JavaScript values are modelled by [JS.val]; objects (Firestore documents,
    tracked items, form data) are finite maps from property names to values.

    Scope of the model:
    - numbers are [NaN], the two infinities and the integers; arithmetic on
      them is exact, as it is for doubles on the integers of magnitude at
      most 2^53; fractional doubles, rounding and the sign of zero are not
      modelled. A theorem whose statement depends on it says so in its
      hypotheses: [JS.modelled] of a value whose number is read, and
      [Spec.safe] of the integers that are added;
    - strings are sequences of code units below 256, one [ascii] each;
    - a value that is not a primitive (a Firestore array, map, timestamp,
      ...) is [VObj p], where [p] is the string its conversion to a
      primitive yields; the model keeps nothing else of it;
    - [Date.now()] is an argument [now] of the handlers. *)

From Stdlib Require Import ZArith String Ascii List Bool Lia.
From Stdlib Require Import DecimalString OrderedTypeEx.
From stdpp Require Import base option list gmap strings sorting.

Local Open Scope Z_scope.

(** ** The fragment of the JavaScript runtime the file uses *)

Module JS.

(** Number values. *)
Inductive num : Type :=
| NaN
| NegInf
| Fin (z : Z)
| PosInf.

(** Language values. *)
Inductive val : Type :=
| VUndef
| VNull
| VBool (b : bool)
| VNum (n : num)
| VStr (s : string)
| VObj (prim : string).

(** An exception thrown by the runtime. *)
Inductive result (A : Type) : Type :=
| Ok (a : A)
| Throw (error : string).
Arguments Ok {A} a.
Arguments Throw {A} error.

Definition bind {A B : Type} (r : result A) (k : A -> result B) : result B :=
  match r with
  | Ok a => k a
  | Throw e => Throw e
  end.

(** *** Numbers *)

(** [a < b] on numbers: false as soon as one side is [NaN]. *)
Definition num_ltb (a b : num) : bool :=
  match a, b with
  | NaN, _ | _, NaN => false
  | NegInf, NegInf => false
  | NegInf, _ => true
  | Fin _, NegInf => false
  | Fin x, Fin y => x <? y
  | Fin _, PosInf => true
  | PosInf, _ => false
  end.

(** [a === b] on numbers: [NaN] equals nothing. *)
Definition num_eqb (a b : num) : bool :=
  match a, b with
  | NegInf, NegInf | PosInf, PosInf => true
  | Fin x, Fin y => x =? y
  | _, _ => false
  end.

Definition num_gtb (a b : num) : bool := num_ltb b a.
Definition num_geb (a b : num) : bool := num_ltb b a || num_eqb a b.

Definition num_neg (a : num) : num :=
  match a with
  | NaN => NaN
  | NegInf => PosInf
  | Fin z => Fin (- z)
  | PosInf => NegInf
  end.

(** [a + b] on numbers. The sum of two integers is the exact integer: it
    is the code's sum when that integer is of magnitude at most 2^53
    ([safe_integer]), which the theorems about sums assume. *)
Definition num_add (a b : num) : num :=
  match a, b with
  | NaN, _ | _, NaN => NaN
  | NegInf, PosInf | PosInf, NegInf => NaN
  | NegInf, _ | _, NegInf => NegInf
  | PosInf, _ | _, PosInf => PosInf
  | Fin x, Fin y => Fin (x + y)
  end.

(** [Math.max(a, b)] on numbers: [NaN] as soon as one argument is. *)
Definition num_max (a b : num) : num :=
  match a, b with
  | NaN, _ | _, NaN => NaN
  | _, _ => if num_ltb a b then b else a
  end.

(** Truthiness of a number: [NaN] and zero are falsy. *)
Definition num_truthy (a : num) : bool :=
  match a with
  | NaN => false
  | Fin z => negb (z =? 0)
  | _ => true
  end.

(** *** Strings *)

Definition code (c : ascii) : N := N_of_ascii c.

(** White space and line terminators among the code units below 256. *)
Definition is_ws (c : ascii) : bool :=
  let n := code c in
  ((9 <=? n) && (n <=? 13) || (n =? 32) || (n =? 160))%N.

Fixpoint trimStart (s : string) : string :=
  match s with
  | String c s' => if is_ws c then trimStart s' else s
  | EmptyString => EmptyString
  end.

Fixpoint trimEnd (s : string) : string :=
  match s with
  | String c s' =>
      match trimEnd s' with
      | EmptyString => if is_ws c then EmptyString else String c EmptyString
      | r => String c r
      end
  | EmptyString => EmptyString
  end.

(** [s.trim()]. *)
Definition trim (s : string) : string := trimEnd (trimStart s).

(** Lower-casing of one code unit: A-Z and the upper-case letters of the
    Latin-1 block (192-214, 216-222) move up by 32. *)
Definition lower_char (c : ascii) : ascii :=
  let n := code c in
  if ((65 <=? n) && (n <=? 90) || (192 <=? n) && (n <=? 214)
      || (216 <=? n) && (n <=? 222))%N
  then ascii_of_N (n + 32) else c.

Fixpoint lower (s : string) : string :=
  match s with
  | String c s' => String (lower_char c) (lower s')
  | EmptyString => EmptyString
  end.

(** Digit of [c] in the given radix, if it is one. *)
Definition radix_digit (radix : Z) (c : ascii) : option Z :=
  let n := Z.of_N (code c) in
  let d := if (48 <=? n) && (n <=? 57) then n - 48
           else if (97 <=? n) && (n <=? 102) then n - 87
           else if (65 <=? n) && (n <=? 70) then n - 55
           else radix in
  if d <? radix then Some d else None.

(** Longest prefix of digits: the value accumulated on [acc], the number
    of digits read added to [cnt], and the rest of the string. *)
Fixpoint digits_in (radix : Z) (s : string) (acc : Z) (cnt : nat)
  : Z * nat * string :=
  match s with
  | String c s' =>
      match radix_digit radix c with
      | Some d => digits_in radix s' (acc * radix + d) (S cnt)
      | None => (acc, cnt, s)
      end
  | EmptyString => (acc, cnt, s)
  end.

(** A string read as a numeric literal, before any rounding: not a
    literal at all, an infinity, or the decimal [m * 10^k]. *)
Inductive literal : Type :=
| NotNumeric
| Infinite (negative : bool)
| Decimal (m k : Z).

Definition literal_neg (l : literal) : literal :=
  match l with
  | NotNumeric => NotNumeric
  | Infinite negative => Infinite (negb negative)
  | Decimal m k => Decimal (- m) k
  end.

(** [0x], [0o] and [0b] literals (no sign). [None]: not of that form. *)
Definition NonDecimalIntegerLiteral (s : string) : option literal :=
  match s with
  | String "0"%char (String p r) =>
      let radix :=
        if (Ascii.eqb p "x" || Ascii.eqb p "X")%char then Some 16
        else if (Ascii.eqb p "o" || Ascii.eqb p "O")%char then Some 8
        else if (Ascii.eqb p "b" || Ascii.eqb p "B")%char then Some 2
        else None in
      match radix with
      | Some b =>
          match digits_in b r 0 0 with
          | (v, S _, EmptyString) => Some (Decimal v 0)
          | _ => Some NotNumeric
          end
      | None => None
      end
  | _ => None
  end.

(** The exponent of a decimal literal; [None] when [s] is not an
    exponent part (the empty string is exponent 0). *)
Definition ExponentPart (s : string) : option Z :=
  match s with
  | EmptyString => Some 0
  | String c r =>
      if (Ascii.eqb c "e" || Ascii.eqb c "E")%char then
        let '(neg, r') :=
          match r with
          | String "+"%char t => (false, t)
          | String "-"%char t => (true, t)
          | _ => (false, r)
          end in
        match digits_in 10 r' 0 0 with
        | (v, S _, EmptyString) => Some (if neg then - v else v)
        | _ => None
        end
      else None
  end.

Definition StrUnsignedDecimalLiteral (s : string) : literal :=
  if String.eqb s "Infinity" then Infinite false
  else
    let '(m1, n1, r1) := digits_in 10 s 0 0 in
    let '(m2, n2, r2) :=
      match r1 with
      | String "."%char r => digits_in 10 r m1 0
      | _ => (m1, 0%nat, r1)
      end in
    match (n1 + n2)%nat, ExponentPart r2 with
    | S _, Some e => Decimal m2 (e - Z.of_nat n2)
    | _, _ => NotNumeric
    end.

Definition StrDecimalLiteral (s : string) : literal :=
  match s with
  | String "+"%char r => StrUnsignedDecimalLiteral r
  | String "-"%char r => literal_neg (StrUnsignedDecimalLiteral r)
  | _ => StrUnsignedDecimalLiteral s
  end.

(** The literal a string is read as by the conversion to a number: white
    space around it is dropped, and the empty string is zero. *)
Definition StringNumericLiteral (s : string) : literal :=
  match trim s with
  | EmptyString => Decimal 0 0
  | t =>
      match NonDecimalIntegerLiteral t with
      | Some l => l
      | None => StrDecimalLiteral t
      end
  end.

(** The number [m * 10^k] when it is an integer. A value that is not an
    integer has no representation in [num], and an integer beyond 2^53 is
    not rounded to a double: [modelled], below, is false of the strings
    that denote either, and the answer of [scale] for them ([NaN], or the
    integer itself) is not the code's. *)
Definition scale (m k : Z) : num :=
  if m =? 0 then Fin 0
  else if 0 <=? k then Fin (m * 10 ^ k)
  else if m mod 10 ^ (- k) =? 0 then Fin (m / 10 ^ (- k))
  else NaN.

Definition literal_value (l : literal) : num :=
  match l with
  | NotNumeric => NaN
  | Infinite negative => if negative then NegInf else PosInf
  | Decimal m k => scale m k
  end.

(** Conversion of a string to a number. *)
Definition StringToNumber (s : string) : num :=
  literal_value (StringNumericLiteral s).

(** Conversion of a number to a string (decimal digits for integers). *)
Definition NumberToString (n : num) : string :=
  match n with
  | NaN => "NaN"
  | NegInf => "-Infinity"
  | Fin z => NilZero.string_of_int (Z.to_int z)
  | PosInf => "Infinity"
  end.

(** *** Values *)

(** [Number(v)]. *)
Definition Number (v : val) : num :=
  match v with
  | VUndef => NaN
  | VNull => Fin 0
  | VBool b => if b then Fin 1 else Fin 0
  | VNum n => n
  | VStr s => StringToNumber s
  | VObj p => StringToNumber p
  end.

(** Truthiness of a value. *)
Definition ToBoolean (v : val) : bool :=
  match v with
  | VUndef | VNull => false
  | VBool b => b
  | VNum n => num_truthy n
  | VStr s => negb (String.eqb s "")
  | VObj _ => true
  end.

Definition ToString (v : val) : string :=
  match v with
  | VUndef => "undefined"
  | VNull => "null"
  | VBool b => if b then "true" else "false"
  | VNum n => NumberToString n
  | VStr s => s
  | VObj p => p
  end.

Definition is_string (v : val) : bool :=
  match v with
  | VStr _ | VObj _ => true
  | _ => false
  end.

(** [a || b]. *)
Definition js_or (a b : val) : val := if ToBoolean a then a else b.

(** [Number(v) || 0], as a number. *)
Definition Number_or_0 (v : val) : num :=
  let n := Number v in if num_truthy n then n else Fin 0.

(** *** The domain of the model

    The integers on which the arithmetic of doubles is exact (magnitude at
    most 2^53), and the values whose conversion to a number the model
    computes as the code does: every value but a finite number outside
    that range, and a string (or the string of an object) that denotes a
    fraction or an integer outside that range. Every theorem that reads a
    number off a value of unknown origin carries [modelled] of that value,
    and every theorem that adds carries the range of the sum, as a
    hypothesis. *)
Definition safe_integer (z : Z) : bool :=
  (-9007199254740992 <=? z) && (z <=? 9007199254740992).

Definition modelled (v : val) : bool :=
  match v with
  | VNum (Fin z) => safe_integer z
  | VStr s | VObj s =>
      match StringNumericLiteral s with
      | Decimal m k =>
          match scale m k with
          | Fin z => safe_integer z
          | _ => false
          end
      | _ => true
      end
  | _ => true
  end.

(** [a === b]. Two objects are the same only when they are one reference;
    every comparison of the file is against a string literal or between
    values of different origin, so [VObj] is equal to nothing. *)
Definition strict_eq (a b : val) : bool :=
  match a, b with
  | VUndef, VUndef | VNull, VNull => true
  | VBool x, VBool y => Bool.eqb x y
  | VNum x, VNum y => num_eqb x y
  | VStr x, VStr y => String.eqb x y
  | _, _ => false
  end.

(** [a + b]: concatenation when one side converts to a string, addition
    of numbers otherwise. *)
Definition js_add (a b : val) : val :=
  if is_string a || is_string b
  then VStr (ToString a ++ ToString b)
  else VNum (num_add (Number a) (Number b)).

(** [Math.max(a, b)]. *)
Definition Math_max (a b : val) : num := num_max (Number a) (Number b).

(** [a < b]: code-unit order when both sides are strings, numeric order
    otherwise. *)
Definition js_lt (a b : val) : bool :=
  if is_string a && is_string b
  then String.ltb (ToString a) (ToString b)
  else num_ltb (Number a) (Number b).

(** [v.toLowerCase()]: only strings have the method. *)
Definition toLowerCase (v : val) : result val :=
  match v with
  | VStr s => Ok (VStr (lower s))
  | _ => Throw "TypeError: toLowerCase is not a function"
  end.

End JS.

Import JS.

(** ** The application: [src/src/App.jsx] *)

Module App.

(** A JavaScript object: property names to values. *)
Abbreviation obj := (gmap string val).

(** [o.k] and [o[k]]: a missing property reads as [undefined]. *)
Definition get (o : obj) (k : string) : val := default VUndef (o !! k).

(** Status options for tracking. *)
Module Status.
Definition READING : val := VStr "Reading".
Definition PLAN_TO_READ : val := VStr "Plan to Read".
Definition COMPLETED : val := VStr "Completed".
Definition DROPPED : val := VStr "Dropped".
End Status.

(** *** Collaborators *)

(** A document of a snapshot: [doc.id] and [doc.data()]. *)
Record document : Type := { doc_id : string; doc_data : obj }.

(** A record of the catalog search, by the properties [handleAddItem]
    reads; [image_url] is the value of [apiResult.images?.jpg?.image_url]. *)
Record apiResult : Type :=
  { mal_id : val; title : val; type : val; chapters : val; image_url : val }.

(** The part of the component state the handlers guard on: the Firestore
    handle [db] (present or not), [userId] and the item under edit. *)
Record session : Type :=
  { db : bool; userId : option string; isEditing : option obj }.

(** Writes handed to the persistence collaborator ([setDoc] is always
    called with [merge: true]). *)
Inductive write : Type :=
| addDoc (payload : obj)
| setDoc (id : val) (payload : obj).

(** [db && userId] are both set (the handlers return at once when
    [!db || !userId]). *)
Definition connected (s : session) : bool :=
  db s && match userId s with
          | Some u => negb (String.eqb u "")
          | None => false
          end.

(** *** 2. Firestore data subscription: the snapshot callback *)

Definition trackingItem (doc : document) : obj :=
  let data := doc_data doc in
  <["lastUpdated" := js_or (get data "lastUpdated") (VNum (Fin 0))]>
  (<["notes" := js_or (get data "notes") (VStr "")]>
  (<["rating" := VNum (Number_or_0 (get data "rating"))]>
  (<["totalChapters" := VNum (Number_or_0 (get data "totalChapters"))]>
  (<["currentChapter" := VNum (Number_or_0 (get data "currentChapter"))]>
  (data ∪ {["id" := VStr (doc_id doc)]}))))).

Definition trackingItems (docs : list document) : list obj :=
  map trackingItem docs.

(** *** handleAddItem *)

Definition isAlreadyTracked (items : list obj) (r : apiResult) : bool :=
  existsb (fun item => strict_eq (get item "apiId") (mal_id r)) items.

Definition newItem (r : apiResult) (now : Z) : obj :=
  list_to_map
    [("apiId", mal_id r);
     ("title", title r);
     ("type", js_or (type r) (VStr "Manga"));
     ("status", Status.PLAN_TO_READ);
     ("currentChapter", VNum (Fin 0));
     ("totalChapters", js_or (chapters r) (VNum (Fin 0)));
     ("imageUrl", js_or (image_url r) (VStr ""));
     ("rating", VNum (Fin 0));
     ("notes", VStr "");
     ("lastUpdated", VNum (Fin now))].

Definition handleAddItem (s : session) (items : list obj) (r : apiResult)
    (now : Z) : list write :=
  if negb (connected s) then []
  else if isAlreadyTracked items r then []
  else [addDoc (newItem r now)].

(** *** handleUpdateChapter *)

Definition newChapter (item : obj) (delta : Z) : num :=
  Math_max (VNum (Fin 0)) (js_add (get item "currentChapter") (VNum (Fin delta))).

Definition newStatus (item : obj) (delta : Z) : val :=
  let newChapter := newChapter item delta in
  let total := Number_or_0 (get item "totalChapters") in
  if num_gtb newChapter (Fin 0)
     && strict_eq (get item "status") Status.PLAN_TO_READ
  then Status.READING
  else if num_gtb total (Fin 0) && num_geb newChapter total
  then Status.COMPLETED
  else if num_gtb newChapter (Fin 0) && num_ltb newChapter total
          && strict_eq (get item "status") Status.COMPLETED
  then Status.READING
  else if num_eqb newChapter (Fin 0)
          && strict_eq (get item "status") Status.READING
  then Status.PLAN_TO_READ
  else get item "status".

(** The document [handleUpdateChapter] writes. *)
Definition advance (item : obj) (delta now : Z) : obj :=
  <["lastUpdated" := VNum (Fin now)]>
  (<["status" := newStatus item delta]>
  (<["currentChapter" := VNum (newChapter item delta)]> item)).

Definition handleUpdateChapter (s : session) (item : obj) (delta now : Z)
  : list write :=
  if negb (connected s) then []
  else [setDoc (get item "id") (advance item delta now)].

(** *** handleSaveEdit *)

Definition editStatus (updatedData : obj) : val :=
  let newCurrent := Number_or_0 (get updatedData "currentChapter") in
  let newTotal := Number_or_0 (get updatedData "totalChapters") in
  let newStatus := get updatedData "status" in
  if strict_eq newStatus Status.PLAN_TO_READ && num_gtb newCurrent (Fin 0)
  then Status.READING
  else if num_gtb newTotal (Fin 0) && num_geb newCurrent newTotal
  then Status.COMPLETED
  else newStatus.

(** The document [handleSaveEdit] writes for the item [isEditing]. *)
Definition applyEdit (isEditing updatedData : obj) (now : Z) : obj :=
  let itemToSave :=
    <["lastUpdated" := VNum (Fin now)]>
    (<["status" := editStatus updatedData]>
    (<["rating" := VNum (Number_or_0 (get updatedData "rating"))]>
    (<["totalChapters" := VNum (Number_or_0 (get updatedData "totalChapters"))]>
    (<["currentChapter" := VNum (Number_or_0 (get updatedData "currentChapter"))]>
    (updatedData ∪ isEditing))))) in
  <["imageUrl" := js_or (get itemToSave "imageUrl")
                     (js_or (get isEditing "imageUrl") (VStr ""))]> itemToSave.

Definition handleSaveEdit (s : session) (updatedData : obj) (now : Z)
  : list write :=
  if negb (connected s) then []
  else match isEditing s with
       | None => []
       | Some item => [setDoc (get item "id") (applyEdit item updatedData now)]
       end.

(** *** Sorting: the sort step of sortedAndFilteredItems *)

(** The comparator handed to [sort]. *)
Definition compareItems (sortField sortDirection : string) (a b : obj)
  : result Z :=
  let aVal := get a sortField in
  let bVal := get b sortField in
  bind
    (if String.eqb sortField "title"
     then bind (toLowerCase (js_or aVal (VStr ""))) (fun aVal =>
          bind (toLowerCase (js_or bVal (VStr ""))) (fun bVal =>
          Ok (aVal, bVal)))
     else Ok (VNum (Number_or_0 aVal), VNum (Number_or_0 bVal)))
    (fun '(aVal, bVal) =>
       if js_lt aVal bVal
       then Ok (if String.eqb sortDirection "asc" then -1 else 1)
       else if js_lt bVal aVal
       then Ok (if String.eqb sortDirection "asc" then 1 else -1)
       else Ok 0).

(** [Array.prototype.sort] is a stable sort; with a consistent comparator
    its result is the one stable ordering, computed here by insertion.
    An exception of the comparator ends the sort. *)
Fixpoint insert (cmp : obj -> obj -> result Z) (x : obj) (l : list obj)
  : result (list obj) :=
  match l with
  | [] => Ok [x]
  | y :: l' =>
      bind (cmp x y) (fun c =>
      if c <=? 0 then Ok (x :: l)
      else bind (insert cmp x l') (fun r => Ok (y :: r)))
  end.

Fixpoint sort (cmp : obj -> obj -> result Z) (l : list obj)
  : result (list obj) :=
  match l with
  | [] => Ok []
  | x :: l' => bind (sort cmp l') (insert cmp x)
  end.

(** [[...items].sort((a, b) => ...)]. *)
Definition sorted (items : list obj) (sortField sortDirection : string)
  : result (list obj) :=
  sort (compareItems sortField sortDirection) items.

(** *** SearchModal: handleSearch up to the request *)

Record searchState : Type :=
  { query : string; results : list apiResult; isLoading : bool;
    error : option string }.

(** The request [fetch] is called with:
    [JIKAN_API_URL?q=encodeURIComponent(q)&limit=15]. *)
Record request : Type := { q : string; limit : Z }.

Definition handleSearch (st : searchState) : searchState * option request :=
  if (String.length (trim (query st)) <? 3)%nat
  then ({| query := query st; results := results st;
           isLoading := isLoading st;
           error := Some "Please enter at least 3 characters to search."%string |},
        None)
  else ({| query := query st; results := []; isLoading := true;
           error := None |},
        Some {| q := query st; limit := 15 |}).

End App.

Import App.

(** ** The specification's side: the rules in the words of the spec *)

Module Spec.

#[global] Instance num_eq_dec : EqDecision num.
Proof. solve_decision. Defined.

#[global] Instance val_eq_dec : EqDecision val.
Proof. solve_decision. Defined.

(** Status re-derivation of [advance], on integer chapter counts: the
    five rules in their priority order, first match wins. *)
Definition advance_status (status : val) (newChapter totalChapters : Z) : val :=
  if decide (0 < newChapter ∧ status = Status.PLAN_TO_READ) then Status.READING
  else if decide (0 < totalChapters ∧ totalChapters ≤ newChapter) then Status.COMPLETED
  else if decide (0 < newChapter ∧ newChapter < totalChapters
                  ∧ status = Status.COMPLETED) then Status.READING
  else if decide (newChapter = 0 ∧ status = Status.READING) then Status.PLAN_TO_READ
  else status.

(** Status re-derivation of [applyEdit]. *)
Definition edit_status (status : val) (currentChapter totalChapters : Z) : val :=
  if decide (status = Status.PLAN_TO_READ ∧ 0 < currentChapter) then Status.READING
  else if decide (0 < totalChapters ∧ totalChapters ≤ currentChapter) then Status.COMPLETED
  else status.

(** A field is missing: it reads as [undefined] (or holds [null]). *)
Definition missing (v : val) : Prop := v = VUndef ∨ v = VNull.

(** A field is non-numeric: it is the number [NaN], or text (or an
    object whose text) that is not a numeric literal. *)
Definition non_numeric (v : val) : Prop :=
  match v with
  | VNum NaN => True
  | VStr s | VObj s => StringNumericLiteral s = NotNumeric
  | _ => False
  end.

(** An integer of the range on which the arithmetic of the code is exact:
    of magnitude at most 2^53. *)
Definition safe (z : Z) : Prop := -9007199254740992 ≤ z ≤ 9007199254740992.

(** The properties the normaliser computes itself. *)
Definition normalised_fields : list string :=
  ["currentChapter"; "totalChapters"; "rating"; "notes"; "lastUpdated"]%string.

(** The fields the normaliser converts with [Number]. *)
Definition numeric_fields : list string :=
  ["currentChapter"; "totalChapters"; "rating"]%string.

(** A catalog identifier: a primitive value that equals itself (any
    value of a JSON record but an object; not NaN). *)
Definition identifier (v : val) : Prop :=
  match v with
  | VNum NaN | VObj _ => False
  | _ => True
  end.

(** Some tracked item has the candidate's catalog identifier (equal in the
    sense of [===]). *)
Definition alreadyTracked (items : list obj) (r : apiResult) : Prop :=
  ∃ item, item ∈ items ∧ strict_eq (get item "apiId") (mal_id r) = true.

(** A number is an integer of the range [lo, hi]. *)
Definition in_range (lo hi : Z) (n : num) : Prop :=
  ∃ z, n = Fin z ∧ lo ≤ z ≤ hi.

(** A number is not below zero. *)
Definition non_negative (n : num) : Prop := num_geb n (Fin 0) = true.

(** *** Sorting *)

(** The key an item is sorted by: its title in lower case, or a number. *)
Inductive sort_key : Type :=
| KTitle (s : string)
| KNumber (n : num).

#[global] Instance sort_key_eq_dec : EqDecision sort_key.
Proof. solve_decision. Defined.

(** A title that is text, or missing (any falsy value). *)
Definition text_or_missing (v : val) : bool :=
  match v with
  | VStr _ => true
  | _ => negb (ToBoolean v)
  end.

(** An item the comparator accepts: under the sort field title, its
    title is text or missing. *)
Definition sortable (sortField : string) (item : obj) : Prop :=
  sortField = "title"%string → text_or_missing (get item "title") = true.

(** An item whose key the model reads as the code does: under a numeric
    sort field, the value of that field is [modelled]. *)
Definition modelled_key (sortField : string) (item : obj) : Prop :=
  sortField ≠ "title"%string → modelled (get item sortField) = true.

(** The text of a title; a missing title is the empty string. *)
Definition title_text (v : val) : string :=
  match v with
  | VStr s => s
  | _ => ""
  end.

(** The number of a field; missing and non-numeric values are 0. *)
Definition number_of (v : val) : num :=
  match Number v with
  | NaN => Fin 0
  | n => n
  end.

Definition key_of (sortField : string) (item : obj) : sort_key :=
  if decide (sortField = "title"%string)
  then KTitle (lower (title_text (get item "title")))
  else KNumber (number_of (get item sortField)).

(** Numeric order ([NaN], which no key is, placed first). *)
Definition num_compare (a b : num) : comparison :=
  match a, b with
  | NaN, NaN => Eq
  | NaN, _ => Lt
  | _, NaN => Gt
  | NegInf, NegInf => Eq
  | NegInf, _ => Lt
  | _, NegInf => Gt
  | Fin x, Fin y => x ?= y
  | Fin _, PosInf => Lt
  | PosInf, Fin _ => Gt
  | PosInf, PosInf => Eq
  end.

(** Order of the keys: code-unit order of titles, numeric order of
    numbers (keys of one sort field are all of one kind). *)
Definition key_compare (a b : sort_key) : comparison :=
  match a, b with
  | KTitle x, KTitle y => String.compare x y
  | KNumber x, KNumber y => num_compare x y
  | KTitle _, KNumber _ => Lt
  | KNumber _, KTitle _ => Gt
  end.

(** The direction: anything but ["asc"] inverts the comparison. *)
Definition directed (sortDirection : string) (c : comparison) : comparison :=
  if decide (sortDirection = "asc"%string) then c else CompOpp c.

(** The comparator's answer for a comparison. *)
Definition sign (c : comparison) : Z :=
  match c with
  | Lt => -1
  | Eq => 0
  | Gt => 1
  end.

(** [out] is the stable ordering of [input]: the same items, ordered by
    [before], the items of any one key in the relative order they have in
    [input]. *)
Definition stably_sorted {K : Type} `{EqDecision K}
    (key : obj → K) (before : obj → obj → Prop) (input out : list obj) : Prop :=
  out ≡ₚ input
  ∧ StronglySorted before out
  ∧ ∀ k, filter (λ y, key y = k) out = filter (λ y, key y = k) input.

(** [a] may stand before [b] in the sorted collection. *)
Definition in_order (sortField sortDirection : string) (a b : obj) : Prop :=
  directed sortDirection
    (key_compare (key_of sortField a) (key_of sortField b)) ≠ Gt.

End Spec.

(** ** Concrete inputs used by the examples below *)

Module Ex.

(** [{status: Dropped, currentChapter: 0}] *)
Definition dropped0 : obj :=
  list_to_map [("status", Status.DROPPED); ("currentChapter", VNum (Fin 0))].

(** [{status: Dropped, currentChapter: 2, totalChapters: 3}] *)
Definition dropped2of3 : obj :=
  list_to_map [("status", Status.DROPPED); ("currentChapter", VNum (Fin 2));
               ("totalChapters", VNum (Fin 3))].

(** [{status: PlanToRead, currentChapter: 0, totalChapters: 10}] *)
Definition planned : obj :=
  list_to_map [("status", Status.PLAN_TO_READ); ("currentChapter", VNum (Fin 0));
               ("totalChapters", VNum (Fin 10))].

(** The form [{status: PlanToRead, currentChapter: 5, totalChapters: 0}]. *)
Definition form5 : obj :=
  list_to_map [("status", Status.PLAN_TO_READ); ("currentChapter", VNum (Fin 5));
               ("totalChapters", VNum (Fin 0))].

(** An item with a title and a rating held as text. *)
Definition rated (title rating : string) : obj :=
  list_to_map [("title", VStr title); ("rating", VStr rating)].

(** A form submitting the rating 11. *)
Definition form_rating11 : obj :=
  list_to_map [("status", Status.READING); ("currentChapter", VNum (Fin 1));
               ("totalChapters", VNum (Fin 0)); ("rating", VNum (Fin 11))].

(** A stored record whose chapter is -5. *)
Definition doc_negative : document :=
  {| doc_id := "d1"; doc_data := {[ "currentChapter" := VNum (Fin (-5)) ]} |}.

(** A stored record whose [lastUpdated] is a non-numeric string. *)
Definition doc_text_stamp : document :=
  {| doc_id := "d2"; doc_data := {[ "lastUpdated" := VStr "yesterday" ]} |}.

(** An empty stored record. *)
Definition doc_empty : document := {| doc_id := "d3"; doc_data := ∅ |}.

Definition connected_session : session :=
  {| db := true; userId := Some "u1"%string; isEditing := None |}.

(** The candidate [{externalId: 7, title: "X", chapters: 10}]. *)
Definition candidate7 : apiResult :=
  {| mal_id := VNum (Fin 7); title := VStr "X"; type := VUndef;
     chapters := VNum (Fin 10); image_url := VUndef |}.

(** An item already tracked for the catalog identifier 7. *)
Definition tracked7 : obj :=
  list_to_map [("apiId", VNum (Fin 7)); ("title", VStr "X")].

(** Three items: two titles that differ in case only, and a later one. *)
Definition banana : obj := {[ "title" := VStr "banana" ]}.
Definition Apple : obj := {[ "title" := VStr "Apple" ]}.
Definition apple : obj := {[ "title" := VStr "apple" ]}.

(** A search state whose query is two letters and a space. *)
Definition search_ab_space : searchState :=
  {| query := "ab "; results := []; isLoading := false; error := None |}.

End Ex.

(** ** The rest of [src/src/App.jsx]: the view, the card and the modals *)

Module View.

(** *** More of the runtime *)

(** [s.includes(sub)]: [sub] occurs in [s]. *)
Fixpoint includes (s sub : string) : bool :=
  String.prefix sub s
  || match s with
     | String _ s' => includes s' sub
     | EmptyString => false
     end.

(** [a <= b]: code-unit order when both sides are strings, numeric order
    otherwise (false as soon as one side is [NaN]). *)
Definition js_le (a b : val) : bool :=
  if is_string a && is_string b
  then String.leb (ToString a) (ToString b)
  else num_ltb (Number a) (Number b) || num_eqb (Number a) (Number b).

(** *** Utility functions *)

Definition appId : string := "my-github-app".

Definition getUserCollectionPath (userId : string) : string :=
  "/artifacts/" ++ appId ++ "/users/" ++ userId ++ "/tracking_items".

(** *** sortedAndFilteredItems: the filters after the sort *)

(** [l.filter(p)] with a predicate that may throw: the items are tested
    in order, and the first exception ends the filter. *)
Fixpoint filterM (p : obj → result bool) (l : list obj) : result (list obj) :=
  match l with
  | [] => Ok []
  | x :: l' =>
      bind (p x) (fun keep =>
      bind (filterM p l') (fun r =>
      Ok (if keep then x :: r else r)))
  end.

(** [filterStatus === 'All' || item.status === filterStatus] *)
Definition statusFilter (filterStatus : string) (item : obj) : bool :=
  String.eqb filterStatus "All"
  || strict_eq (get item "status") (VStr filterStatus).

(** [(item.title || '').toLowerCase().includes(searchQuery.toLowerCase())] *)
Definition searchFilter (searchQuery : string) (item : obj) : result bool :=
  bind (toLowerCase (js_or (get item "title") (VStr ""))) (fun t =>
  Ok (includes (ToString t) (lower searchQuery))).

Definition sortedAndFilteredItems (items : list obj)
    (sortField sortDirection filterStatus searchQuery : string)
  : result (list obj) :=
  bind (sorted items sortField sortDirection) (fun sorted =>
  filterM (searchFilter searchQuery)
    (List.filter (statusFilter filterStatus) sorted)).

(** The sort button: [setSortDirection(dir => dir === 'asc' ? 'desc' : 'asc')]. *)
Definition toggleSortDirection (dir : string) : string :=
  if String.eqb dir "asc" then "desc" else "asc".

(** *** TrackingCard *)

(** The -1 button is disabled when [item.currentChapter <= 0]. *)
Definition decrementDisabled (item : obj) : bool :=
  js_le (get item "currentChapter") (VNum (Fin 0)).

(** *** StarRatingInput *)

Definition totalStars : nat := 10.

(** The star values of the buttons: [index + 1] for each index of
    [[...Array(totalStars)]]. *)
Definition starValues : list Z :=
  map (fun index => Z.of_nat index + 1) (seq 0 totalStars).

(** A click on a star: [setRating(starValue === rating ? 0 : starValue)]. *)
Definition starClick (rating : val) (starValue : Z) : val :=
  if strict_eq (VNum (Fin starValue)) rating then VNum (Fin 0)
  else VNum (Fin starValue).

(** A star is lit when [starValue <= (hoverRating || rating)]. *)
Definition starLit (hoverRating rating : val) (starValue : Z) : bool :=
  js_le (VNum (Fin starValue)) (js_or hoverRating rating).

(** *** EditModal *)

(** The state of the modal: the form and the rating of the stars. *)
Record editModal : Type := { formData : obj; currentRating : val }.

(** The modal opened on an item: [useState({ ...item })] and
    [useState(item.rating || 0)]. *)
Definition openEditModal (item : obj) : editModal :=
  {| formData := item;
     currentRating := js_or (get item "rating") (VNum (Fin 0)) |}.

(** An input changes: [setFormData(prev => ({ ...prev, [name]: value }))];
    the value of an input is a string. *)
Definition handleChange (m : editModal) (name value : string) : editModal :=
  {| formData := <[name := VStr value]> (formData m);
     currentRating := currentRating m |}.

(** A click on a star of the modal. *)
Definition clickStar (m : editModal) (starValue : Z) : editModal :=
  {| formData := formData m;
     currentRating := starClick (currentRating m) starValue |}.

(** What the user does in the modal before saving: change an input, or
    click a star. *)
Inductive formAction : Type :=
| Change (name value : string)
| Star (starValue : Z).

Definition act (m : editModal) (a : formAction) : editModal :=
  match a with
  | Change name value => handleChange m name value
  | Star starValue => clickStar m starValue
  end.

(** The modal opened on an item, after a sequence of actions. *)
Definition edited (item : obj) (actions : list formAction) : editModal :=
  foldl act (openEditModal item) actions.

(** [onSave({ ...formData, rating: currentRating })]: the data handed to
    [handleSaveEdit]. *)
Definition handleSubmit (m : editModal) : obj :=
  <["rating" := currentRating m]> (formData m).

(** *** SearchModal: the end of handleSearch *)

(** How the request ends: [fetch] or [response.json()] rejects with a
    message, the response is not ok, or the body is read; [data] is
    [data.data], [None] when it is missing. *)
Inductive fetchOutcome : Type :=
| Rejected (message : string)
| NotOk (statusText : string)
| Body (data : option (list apiResult)).

(** The state after the [try] block and [setIsLoading(false)]. *)
Definition searchSettled (st : searchState) (o : fetchOutcome) : searchState :=
  match o with
  | Rejected message =>
      {| query := query st; results := results st; isLoading := false;
         error := Some message |}
  | NotOk statusText =>
      {| query := query st; results := results st; isLoading := false;
         error := Some ("API Error: " ++ statusText)%string |}
  | Body data =>
      {| query := query st; results := default [] data; isLoading := false;
         error := error st |}
  end.

(** A whole search: the guard, then the request and its outcome. *)
Definition searchCompleted (st : searchState) (o : fetchOutcome) : searchState :=
  match handleSearch st with
  | (st', Some _) => searchSettled st' o
  | (st', None) => st'
  end.

End View.

Import View.

(** ** Notions used to state the properties of the view and the modals *)

Module ViewSpec.

(** An item is shown under a status filter and a search query: the filter
    is All or the item's status, and the lower-cased query occurs in the
    lower-cased title (a missing title being empty). *)
Definition shown (filterStatus searchQuery : string) (item : obj) : Prop :=
  (filterStatus = "All"%string ∨ get item "status" = VStr filterStatus)
  ∧ ∃ before after,
      lower (Spec.title_text (get item "title"))
      = (before ++ lower searchQuery ++ after)%string.

(** The same, as a test. *)
Definition visible (filterStatus searchQuery : string) (item : obj) : bool :=
  statusFilter filterStatus item
  && includes (lower (Spec.title_text (get item "title"))) (lower searchQuery).

(** The only exception of the view is the TypeError of [toLowerCase]. *)
Definition one_error {A : Type} (r : result A) : Prop :=
  ∀ e, r = Throw e → e = "TypeError: toLowerCase is not a function"%string.

(** The title of every item is text or missing. *)
Definition titled (items : list obj) : Prop :=
  Forall (λ item, Spec.text_or_missing (get item "title") = true) items.

(** An item in the form the snapshot callback gives it: it has an id, its
    three numeric fields are numbers other than NaN, its notes and its
    lastUpdated are not changed by their defaults. *)
Definition normal (item : obj) : Prop :=
  is_Some (item !! "id"%string)
  ∧ (∀ k, k ∈ Spec.numeric_fields → ∃ n, item !! k = Some (VNum n) ∧ n ≠ NaN)
  ∧ (∃ v, item !! "notes"%string = Some v ∧ js_or v (VStr "") = v)
  ∧ (∃ v, item !! "lastUpdated"%string = Some v ∧ js_or v (VNum (Fin 0)) = v).

(** Notes that their default leaves as they are (a string, or the notes
    of a normal item), when the object has notes. *)
Definition notes_kept (o : obj) : Prop :=
  ∀ v, o !! "notes"%string = Some v → js_or v (VStr "") = v.

End ViewSpec.

(** ** Concrete inputs for the view and the modals *)

Module ViewEx.

(** The three titled items of [Ex], in a view. *)
Definition shelf : list obj := [Ex.banana; Ex.Apple; Ex.apple].

(** An item whose title is a number. *)
Definition numbered : obj := {[ "title"%string := VNum (Fin 3) ]}.

(** Two items stamped at times 5 and 7. *)
Definition stamped5 : obj :=
  list_to_map [("title", VStr "a"); ("lastUpdated", VNum (Fin 5))].
Definition stamped7 : obj :=
  list_to_map [("title", VStr "b"); ("lastUpdated", VNum (Fin 7))].

(** A normalised item: the record [{status: Reading, currentChapter: 3,
    totalChapters: 10, title: "X"}] of the document [d9]. *)
Definition reading3 : obj :=
  trackingItem {| doc_id := "d9";
                  doc_data := list_to_map [("status", Status.READING);
                                           ("currentChapter", VNum (Fin 3));
                                           ("totalChapters", VNum (Fin 10));
                                           ("title", VStr "X")] |}.

(** A search state whose query has three letters. *)
Definition search_abc : searchState :=
  {| query := "abc"; results := [Ex.candidate7]; isLoading := false;
     error := Some "old"%string |}.

End ViewEx.

(** ** Properties *)

Example Number_examples :
  map StringToNumber
    ["" ; "  12 " ; "-3" ; "abc" ; "0x1F" ; "1e3" ; "5." ; "1 2" ; "+-3" ;
     "-0x10" ; "Infinity" ; "-Infinity" ; "12.50e1"; "0b101" ; "1e" ; "."]%string
  = [Fin 0; Fin 12; Fin (-3); NaN; Fin 31; Fin 1000; Fin 5; NaN; NaN;
     NaN; PosInf; NegInf; Fin 125; Fin 5; NaN; NaN].
Proof. vm_compute. reflexivity. Qed.

Example ToString_examples :
  map NumberToString [Fin 0; Fin 51; Fin (-7); NaN]
  = ["0"; "51"; "-7"; "NaN"]%string.
Proof. vm_compute. reflexivity. Qed.

Example lower_example : lower "Ab Z[" = "ab z["%string.
Proof. vm_compute. reflexivity. Qed.

Example trim_example : trim "  a b  " = "a b"%string.
Proof. vm_compute. reflexivity. Qed.

(** *** Reading properties of written objects *)

Lemma get_insert_eq (o : obj) (k : string) (v : val) : get (<[k := v]> o) k = v.
Proof. unfold get. by rewrite lookup_insert_eq. Qed.

Lemma get_insert_ne (o : obj) (k k' : string) (v : val) :
  k ≠ k' → get (<[k := v]> o) k' = get o k'.
Proof. intros Hne. unfold get. by rewrite lookup_insert_ne. Qed.

(** A spread [{...base, ...over}] reads a property from [over] when it
    has it and from [base] otherwise. *)
Lemma get_spread (over base : obj) (k : string) :
  get (over ∪ base) k = match over !! k with Some v => v | None => get base k end.
Proof.
  unfold get. rewrite lookup_union.
  destruct (over !! k), (base !! k); reflexivity.
Qed.

Ltac get_simpl :=
  repeat first
    [ rewrite get_insert_eq
    | rewrite get_insert_ne by discriminate ].

(** *** Facts about the runtime *)

Lemma strict_eq_str (v : val) (s : string) :
  strict_eq v (VStr s) = true ↔ v = VStr s.
Proof.
  destruct v; simpl; try (split; [discriminate | discriminate]).
  rewrite String.eqb_eq. split; congruence.
Qed.

Lemma strict_eq_str_decide (v : val) (s : string) :
  strict_eq v (VStr s) = bool_decide (v = VStr s).
Proof.
  destruct (strict_eq v (VStr s)) eqn:E.
  - apply strict_eq_str in E. by rewrite bool_decide_eq_true_2.
  - rewrite bool_decide_eq_false_2; [done |].
    intros H. apply strict_eq_str in H. congruence.
Qed.

Lemma Number_or_0_not_NaN (v : val) : Number_or_0 v ≠ NaN.
Proof.
  unfold Number_or_0. destruct (Number v) as [| |z|]; simpl; try discriminate.
  destruct (z =? 0); discriminate.
Qed.

Lemma Number_or_0_num (z : Z) : Number_or_0 (VNum (Fin z)) = Fin z.
Proof.
  unfold Number_or_0. simpl. destruct (Z.eqb_spec z 0); simpl; congruence.
Qed.

(** The conversion of a non-numeric value is [NaN]. *)
Lemma non_numeric_NaN (v : val) : Spec.non_numeric v → Number v = NaN.
Proof.
  destruct v as [| | b | [| | z |] | s | s]; simpl; try tauto;
    unfold StringToNumber; by intros ->.
Qed.

(** A non-numeric value is a modelled one. *)
Lemma non_numeric_modelled (v : val) : Spec.non_numeric v → modelled v = true.
Proof.
  destruct v as [| | b | [| | z |] | s | s]; simpl; try tauto; by intros ->.
Qed.

(** The number of a modelled value is [NaN], an infinity or an integer of
    magnitude at most 2^53. *)
Lemma modelled_Number (v : val) (z : Z) :
  modelled v = true → Number v = Fin z → Spec.safe z.
Proof.
  assert (Hs : ∀ y, safe_integer y = true → Spec.safe y).
  { intros y. unfold safe_integer, Spec.safe.
    rewrite andb_true_iff, !Z.leb_le. lia. }
  destruct v as [| | b | [| | y |] | s | s]; simpl; try discriminate.
  - intros _ [= <-]. unfold Spec.safe. lia.
  - intros _ H. unfold Spec.safe. destruct b; injection H as <-; lia.
  - intros H [= <-]. by apply Hs.
  - unfold StringToNumber.
    destruct (StringNumericLiteral s) as [| negative | m k]; simpl.
    + discriminate.
    + destruct negative; discriminate.
    + destruct (scale m k) as [| | y |]; try discriminate.
      intros H [= <-]. by apply Hs.
  - unfold StringToNumber.
    destruct (StringNumericLiteral s) as [| negative | m k]; simpl.
    + discriminate.
    + destruct negative; discriminate.
    + destruct (scale m k) as [| | y |]; try discriminate.
      intros H [= <-]. by apply Hs.
Qed.

(** Text that denotes a fraction, or an integer beyond 2^53, and a number
    beyond 2^53 are not modelled; every other value is. *)
Example modelled_examples :
  map modelled
    [VStr "5"; VStr " 12 "; VStr "abc"; VStr ""; VStr "1e3"; VStr "12.50e1";
     VStr "-Infinity"; VUndef; VNull; VBool true; VNum NaN; VNum PosInf;
     VNum (Fin 9007199254740992); VStr "9007199254740992";
     VStr "1.5"; VStr ".5"; VStr "1e-2"; VStr "-1.5"; VStr "10.5";
     VStr "9007199254740993"; VStr "1e400"; VNum (Fin 9007199254740993)]
  = [true; true; true; true; true; true;
     true; true; true; true; true; true;
     true; true;
     false; false; false; false; false;
     false; false; false].
Proof. vm_compute. reflexivity. Qed.

Lemma Number_or_0_non_numeric (v : val) :
  Spec.non_numeric v → Number_or_0 v = Fin 0.
Proof.
  intros H. unfold Number_or_0. by rewrite (non_numeric_NaN v H).
Qed.

Lemma Number_or_0_missing (v : val) : Spec.missing v → Number_or_0 v = Fin 0.
Proof. intros [-> | ->]; reflexivity. Qed.

Lemma Number_or_0_number_of (v : val) : Number_or_0 v = Spec.number_of v.
Proof.
  unfold Number_or_0, Spec.number_of.
  destruct (Number v) as [| |z|]; simpl; try reflexivity.
  destruct (Z.eqb_spec z 0); simpl; congruence.
Qed.

(** [Math.max(0, c + delta)] on an integer chapter. *)
Lemma newChapter_int (item : obj) (c delta : Z) :
  get item "currentChapter" = VNum (Fin c) →
  newChapter item delta = Fin (Z.max 0 (c + delta)).
Proof.
  intros Hc. unfold newChapter, Math_max, js_add. rewrite Hc. simpl.
  destruct (Z.ltb_spec 0 (c + delta)); f_equal; lia.
Qed.

(** The status rule of [handleUpdateChapter], on integers, is the rule of
    the specification. *)
Lemma newStatus_int (item : obj) (c t delta : Z) :
  get item "currentChapter" = VNum (Fin c) →
  Number_or_0 (get item "totalChapters") = Fin t →
  newStatus item delta
  = Spec.advance_status (get item "status") (Z.max 0 (c + delta)) t.
Proof.
  intros Hc Ht. unfold newStatus, Spec.advance_status.
  rewrite (newChapter_int _ _ _ Hc), Ht.
  unfold Status.PLAN_TO_READ, Status.COMPLETED, Status.READING.
  rewrite !strict_eq_str_decide.
  unfold num_gtb, num_geb, num_ltb, num_eqb.
  set (n := Z.max 0 (c + delta)).
  repeat case_decide; repeat case_bool_decide;
    repeat match goal with
           | |- context [?a <? ?b] => destruct (Z.ltb_spec a b)
           | |- context [?a =? ?b] => destruct (Z.eqb_spec a b)
           end; simpl; try reflexivity; exfalso; intuition lia.
Qed.

Lemma advance_currentChapter (item : obj) (delta now : Z) :
  get (advance item delta now) "currentChapter" = VNum (newChapter item delta).
Proof. unfold advance. by get_simpl. Qed.

Lemma advance_status (item : obj) (delta now : Z) :
  get (advance item delta now) "status" = newStatus item delta.
Proof. unfold advance. by get_simpl. Qed.

(** In a connected session the handler hands exactly this document to the
    persistence collaborator, under the item's id. *)
Lemma handleUpdateChapter_writes (s : session) (item : obj) (delta now : Z) :
  connected s = true →
  handleUpdateChapter s item delta now
  = [setDoc (get item "id") (advance item delta now)].
Proof. intros Hs. unfold handleUpdateChapter. by rewrite Hs. Qed.

(** C1: for every item with an integer chapter [c] and total [t] (the
    total read as the handler reads it, off a modelled value) and every
    integer delta, the chapter, the delta and their sum being of magnitude
    at most 2^53 (where the sum of the code is the sum of the integers),
    advance stores newChapter = max(0, c + delta) and the status given by
    the five rules of the specification taken in their priority order. *)
Theorem advance_rules (item : obj) (c t delta now : Z) :
  get item "currentChapter" = VNum (Fin c) →
  modelled (get item "totalChapters") = true →
  Number_or_0 (get item "totalChapters") = Fin t →
  Spec.safe c → Spec.safe delta → Spec.safe (c + delta) →
  get (advance item delta now) "currentChapter" = VNum (Fin (Z.max 0 (c + delta)))
  ∧ get (advance item delta now) "status"
    = Spec.advance_status (get item "status") (Z.max 0 (c + delta)) t.
Proof.
  intros Hc _ Ht _ _ _. split.
  - rewrite advance_currentChapter. by rewrite (newChapter_int _ _ _ Hc).
  - rewrite advance_status. by apply newStatus_int.
Qed.

Lemma advance_rules_witness :
  get Ex.planned "currentChapter" = VNum (Fin 0)
  ∧ modelled (get Ex.planned "totalChapters") = true
  ∧ Number_or_0 (get Ex.planned "totalChapters") = Fin 10
  ∧ Spec.safe 0 ∧ Spec.safe 10 ∧ Spec.safe (0 + 10)
  ∧ get (advance Ex.planned 10 1000) "currentChapter" = VNum (Fin (Z.max 0 (0 + 10)))
  ∧ get (advance Ex.planned 10 1000) "status"
    = Spec.advance_status (get Ex.planned "status") (Z.max 0 (0 + 10)) 10.
Proof.
  split; [reflexivity |]. split; [reflexivity |]. split; [reflexivity |].
  split; [unfold Spec.safe; lia |]. split; [unfold Spec.safe; lia |].
  split; [unfold Spec.safe; lia |].
  apply (advance_rules Ex.planned 0 10 10 1000);
    first [reflexivity | unfold Spec.safe; lia].
Defined.

Example advance_completes_at_total :
  let item : obj := list_to_map [("status", Status.READING);
                                 ("currentChapter", VNum (Fin 9));
                                 ("totalChapters", VNum (Fin 10))] in
  get (advance item 1 1000) "currentChapter" = VNum (Fin 10)
  ∧ get (advance item 1 1000) "status" = Status.COMPLETED.
Proof. vm_compute. split; reflexivity. Qed.

Example advance_uncompletes :
  let item : obj := list_to_map [("status", Status.COMPLETED);
                                 ("currentChapter", VNum (Fin 10));
                                 ("totalChapters", VNum (Fin 10))] in
  get (advance item (-1) 1000) "currentChapter" = VNum (Fin 9)
  ∧ get (advance item (-1) 1000) "status" = Status.READING.
Proof. vm_compute. split; reflexivity. Qed.

Example advance_floor_at_zero :
  get (advance Ex.planned (-1) 1000) "currentChapter" = VNum (Fin 0)
  ∧ get (advance Ex.planned (-1) 1000) "status" = Status.PLAN_TO_READ.
Proof. vm_compute. split; reflexivity. Qed.

(** *** handleSaveEdit *)

Lemma applyEdit_status (isEditing updatedData : obj) (now : Z) :
  get (applyEdit isEditing updatedData now) "status" = editStatus updatedData.
Proof. unfold applyEdit. by get_simpl. Qed.

Lemma handleSaveEdit_writes (s : session) (item updatedData : obj) (now : Z) :
  connected s = true → isEditing s = Some item →
  handleSaveEdit s updatedData now
  = [setDoc (get item "id") (applyEdit item updatedData now)].
Proof. intros Hs He. unfold handleSaveEdit. by rewrite Hs, He. Qed.

Lemma editStatus_int (updatedData : obj) (c t : Z) :
  Number_or_0 (get updatedData "currentChapter") = Fin c →
  Number_or_0 (get updatedData "totalChapters") = Fin t →
  editStatus updatedData = Spec.edit_status (get updatedData "status") c t.
Proof.
  intros Hc Ht. unfold editStatus, Spec.edit_status. rewrite Hc, Ht.
  unfold Status.PLAN_TO_READ. rewrite strict_eq_str_decide.
  unfold num_gtb, num_geb, num_ltb, num_eqb.
  repeat case_decide; repeat case_bool_decide;
    repeat match goal with
           | |- context [?a <? ?b] => destruct (Z.ltb_spec a b)
           | |- context [?a =? ?b] => destruct (Z.eqb_spec a b)
           end; simpl; try reflexivity; exfalso; intuition lia.
Qed.

(** C2: for every original item and every submitted form whose chapter and
    total are modelled values (numbers, or text that denotes an integer of
    magnitude at most 2^53 or no number at all) that coerce to the integers
    [c] and [t], applyEdit stores the status of the specification's rule:
    Reading when PlanToRead is submitted with c > 0, else Completed when
    t > 0 and c >= t, else the submitted status; a submitted Dropped or
    Completed status is kept or becomes Completed. *)
Theorem applyEdit_status_rules (isEditing updatedData : obj) (c t now : Z) :
  modelled (get updatedData "currentChapter") = true →
  modelled (get updatedData "totalChapters") = true →
  Number_or_0 (get updatedData "currentChapter") = Fin c →
  Number_or_0 (get updatedData "totalChapters") = Fin t →
  get (applyEdit isEditing updatedData now) "status"
  = Spec.edit_status (get updatedData "status") c t
  ∧ (get updatedData "status" = Status.DROPPED
     ∨ get updatedData "status" = Status.COMPLETED →
     get (applyEdit isEditing updatedData now) "status" = get updatedData "status"
     ∨ get (applyEdit isEditing updatedData now) "status" = Status.COMPLETED).
Proof.
  intros _ _ Hc Ht. rewrite applyEdit_status, (editStatus_int _ _ _ Hc Ht).
  split; [reflexivity |].
  intros Hs. unfold Spec.edit_status.
  case_decide as H1.
  - destruct H1 as [H1 _], Hs as [Hs | Hs]; rewrite Hs in H1; discriminate.
  - case_decide; [right | left]; reflexivity.
Qed.

Lemma applyEdit_status_rules_witness :
  modelled (get Ex.form5 "currentChapter") = true
  ∧ modelled (get Ex.form5 "totalChapters") = true
  ∧ Number_or_0 (get Ex.form5 "currentChapter") = Fin 5
  ∧ Number_or_0 (get Ex.form5 "totalChapters") = Fin 0
  ∧ get (applyEdit Ex.planned Ex.form5 1000) "status" = Status.READING.
Proof.
  split; [reflexivity |]. split; [reflexivity |].
  split; [reflexivity |]. split; [reflexivity |].
  exact (proj1 (applyEdit_status_rules Ex.planned Ex.form5 5 0 1000
                  eq_refl eq_refl eq_refl eq_refl)).
Defined.

(** *** Dropped items under handleUpdateChapter *)

Lemma newStatus_dropped (item : obj) (delta : Z) :
  get item "status" = Status.DROPPED →
  newStatus item delta = Status.DROPPED ∨ newStatus item delta = Status.COMPLETED.
Proof.
  intros Hs. unfold newStatus. rewrite Hs. simpl.
  rewrite !andb_false_r. simpl.
  destruct (_ && _); [right | left]; reflexivity.
Qed.

(** C3: for every item whose status is Dropped and every positive delta,
    advance does not store the status Reading (the status stays Dropped or
    becomes Completed). *)
Theorem advance_dropped_not_reading (item : obj) (delta now : Z) :
  get item "status" = Status.DROPPED →
  0 < delta →
  get (advance item delta now) "status" ≠ Status.READING
  ∧ (get (advance item delta now) "status" = Status.DROPPED
     ∨ get (advance item delta now) "status" = Status.COMPLETED).
Proof.
  intros Hs _. rewrite advance_status.
  destruct (newStatus_dropped item delta Hs) as [-> | ->];
    (split; [discriminate | auto]).
Qed.

Lemma advance_dropped_not_reading_witness :
  get Ex.dropped0 "status" = Status.DROPPED
  ∧ 0 < 1
  ∧ get (advance Ex.dropped0 1 1000) "status" ≠ Status.READING
  ∧ get (advance Ex.dropped0 1 1000) "currentChapter" = VNum (Fin 1)
  ∧ get (advance Ex.dropped0 1 1000) "status" = Status.DROPPED.
Proof.
  split; [reflexivity |]. split; [lia |].
  split; [exact (proj1 (advance_dropped_not_reading Ex.dropped0 1 1000
                          eq_refl eq_refl)) |].
  split; reflexivity.
Defined.

(** C4: for every item whose status is Dropped and whose total is t > 0,
    an advance whose resulting chapter max(0, c + delta) reaches t stores
    the status Completed. *)
Theorem advance_dropped_completes (item : obj) (c t delta now : Z) :
  get item "status" = Status.DROPPED →
  get item "currentChapter" = VNum (Fin c) →
  Number_or_0 (get item "totalChapters") = Fin t →
  0 < t →
  t ≤ Z.max 0 (c + delta) →
  get (advance item delta now) "status" = Status.COMPLETED.
Proof.
  intros Hs Hc Ht Hpos Hreach.
  rewrite advance_status, (newStatus_int _ _ _ _ Hc Ht), Hs.
  unfold Spec.advance_status.
  rewrite decide_False by (intros [_ H]; discriminate).
  rewrite decide_True by lia. reflexivity.
Qed.

Lemma advance_dropped_completes_witness :
  get Ex.dropped2of3 "status" = Status.DROPPED
  ∧ get Ex.dropped2of3 "currentChapter" = VNum (Fin 2)
  ∧ Number_or_0 (get Ex.dropped2of3 "totalChapters") = Fin 3
  ∧ 0 < 3
  ∧ 3 ≤ Z.max 0 (2 + 1)
  ∧ get (advance Ex.dropped2of3 1 1000) "status" = Status.COMPLETED.
Proof.
  split; [reflexivity |]. split; [reflexivity |]. split; [reflexivity |].
  split; [lia |]. split; [simpl; lia |].
  apply (advance_dropped_completes Ex.dropped2of3 2 3 1 1000);
    [reflexivity | reflexivity | reflexivity | lia | simpl; lia].
Defined.

(** *** The snapshot normaliser *)

Lemma trackingItem_currentChapter (doc : document) :
  get (trackingItem doc) "currentChapter"
  = VNum (Number_or_0 (get (doc_data doc) "currentChapter")).
Proof. unfold trackingItem. by get_simpl. Qed.

Lemma trackingItem_totalChapters (doc : document) :
  get (trackingItem doc) "totalChapters"
  = VNum (Number_or_0 (get (doc_data doc) "totalChapters")).
Proof. unfold trackingItem. by get_simpl. Qed.

Lemma trackingItem_rating (doc : document) :
  get (trackingItem doc) "rating"
  = VNum (Number_or_0 (get (doc_data doc) "rating")).
Proof. unfold trackingItem. by get_simpl. Qed.

Lemma trackingItem_notes (doc : document) :
  get (trackingItem doc) "notes" = js_or (get (doc_data doc) "notes") (VStr "").
Proof. unfold trackingItem. by get_simpl. Qed.

Lemma trackingItem_lastUpdated (doc : document) :
  get (trackingItem doc) "lastUpdated"
  = js_or (get (doc_data doc) "lastUpdated") (VNum (Fin 0)).
Proof. unfold trackingItem. by get_simpl. Qed.

Lemma trackingItem_other (doc : document) (k : string) :
  k ∉ Spec.normalised_fields →
  trackingItem doc !! k = (doc_data doc ∪ {["id"%string := VStr (doc_id doc)]}) !! k.
Proof.
  intros Hk. unfold trackingItem.
  unfold Spec.normalised_fields in Hk. rewrite !not_elem_of_cons in Hk.
  rewrite !lookup_insert_ne; [reflexivity | | | | |]; intros <-; tauto.
Qed.

Lemma applyEdit_currentChapter (isEditing updatedData : obj) (now : Z) :
  get (applyEdit isEditing updatedData now) "currentChapter"
  = VNum (Number_or_0 (get updatedData "currentChapter")).
Proof. unfold applyEdit. by get_simpl. Qed.

Lemma applyEdit_rating (isEditing updatedData : obj) (now : Z) :
  get (applyEdit isEditing updatedData now) "rating"
  = VNum (Number_or_0 (get updatedData "rating")).
Proof. unfold applyEdit. by get_simpl. Qed.

Lemma newItem_fields (r : apiResult) (now : Z) :
  get (newItem r now) "status" = Status.PLAN_TO_READ
  ∧ get (newItem r now) "currentChapter" = VNum (Fin 0)
  ∧ get (newItem r now) "rating" = VNum (Fin 0)
  ∧ get (newItem r now) "notes" = VStr ""
  ∧ get (newItem r now) "totalChapters" = js_or (chapters r) (VNum (Fin 0)).
Proof. repeat split; reflexivity. Qed.

(** [Math.max(0, x)] is not below zero unless it is [NaN]. *)
Lemma num_max_0_non_negative (x : num) :
  x ≠ NaN → Spec.non_negative (num_max (Fin 0) x).
Proof.
  unfold Spec.non_negative, num_geb.
  destruct x as [| |z|]; simpl; try congruence; intros _.
  - destruct (Z.ltb_spec 0 z); simpl.
    + destruct (Z.ltb_spec 0 z); [reflexivity | lia].
    + reflexivity.
Qed.

Lemma newChapter_non_negative (item : obj) (c : num) (delta : Z) :
  get item "currentChapter" = VNum c → c ≠ NaN →
  Spec.non_negative (newChapter item delta).
Proof.
  intros Hc Hnan. unfold newChapter, Math_max, js_add. rewrite Hc. simpl.
  apply num_max_0_non_negative. destruct c; simpl; congruence.
Qed.

(** The coerced number [Number(v) || 0] is below zero exactly when
    [Number(v)] is. *)
Lemma Number_or_0_non_negative (v : val) :
  Spec.non_negative (Number_or_0 v) ↔ num_ltb (Number v) (Fin 0) = false.
Proof.
  unfold Spec.non_negative, Number_or_0, num_geb.
  destruct (Number v) as [| |z|]; simpl;
    try (split; intros; (reflexivity || discriminate)).
  destruct (Z.eqb_spec z 0) as [-> | Hz]; simpl;
    [split; intros; reflexivity |].
  destruct (Z.ltb_spec 0 z), (Z.ltb_spec z 0), (Z.eqb_spec z 0);
    simpl; split; intros; try reflexivity; try discriminate; lia.
Qed.

Lemma id_not_normalised : "id"%string ∉ Spec.normalised_fields.
Proof.
  unfold Spec.normalised_fields. rewrite !not_elem_of_cons.
  repeat split; [discriminate .. | apply not_elem_of_nil].
Qed.

Lemma trackingItem_numeric (doc : document) (k : string) :
  k ∈ Spec.numeric_fields →
  get (trackingItem doc) k = VNum (Number_or_0 (get (doc_data doc) k)).
Proof.
  unfold Spec.numeric_fields. intros Hk.
  apply elem_of_cons in Hk as [-> | Hk]; [apply trackingItem_currentChapter |].
  apply elem_of_cons in Hk as [-> | Hk]; [apply trackingItem_totalChapters |].
  apply elem_of_cons in Hk as [-> | Hk]; [apply trackingItem_rating |].
  by apply elem_of_nil in Hk.
Qed.

(** C5, as amended: advance floors the chapter at zero, for every item
    whose chapter is a number other than NaN (every item of the collection
    is one) and every delta. The normaliser and applyEdit store a number
    that is never NaN; when the stored or submitted chapter is a modelled
    value (a number, or text that denotes an integer of magnitude at most
    2^53 or no number at all), that number is the chapter coerced to a
    number, 0 when missing or non-numeric, without a floor: it is below
    zero exactly when the converted input is. *)
Theorem currentChapter_floor
    (doc : document) (isEditing updatedData : obj) (delta now : Z) :
  (∀ (item : obj) (c : num),
      get item "currentChapter" = VNum c → c ≠ NaN →
      get (advance item delta now) "currentChapter" = VNum (newChapter item delta)
      ∧ Spec.non_negative (newChapter item delta))
  ∧ Spec.non_negative (newChapter (trackingItem doc) delta)
  ∧ (∃ n, get (trackingItem doc) "currentChapter" = VNum n
          ∧ n ≠ NaN
          ∧ (modelled (get (doc_data doc) "currentChapter") = true →
             n = Spec.number_of (get (doc_data doc) "currentChapter")
             ∧ (Spec.non_negative n
                ↔ num_ltb (Number (get (doc_data doc) "currentChapter")) (Fin 0)
                  = false)))
  ∧ (∃ n, get (applyEdit isEditing updatedData now) "currentChapter" = VNum n
          ∧ n ≠ NaN
          ∧ (modelled (get updatedData "currentChapter") = true →
             n = Spec.number_of (get updatedData "currentChapter")
             ∧ (Spec.non_negative n
                ↔ num_ltb (Number (get updatedData "currentChapter")) (Fin 0)
                  = false))).
Proof.
  split; [| split; [| split]].
  - intros item c Hc Hnan. split; [apply advance_currentChapter |].
    by apply (newChapter_non_negative item c).
  - apply (newChapter_non_negative _ _ _ (trackingItem_currentChapter doc)).
    apply Number_or_0_not_NaN.
  - eexists. split; [apply trackingItem_currentChapter |].
    split; [apply Number_or_0_not_NaN |]. intros _.
    split; [apply Number_or_0_number_of | apply Number_or_0_non_negative].
  - eexists. split; [apply applyEdit_currentChapter |].
    split; [apply Number_or_0_not_NaN |]. intros _.
    split; [apply Number_or_0_number_of | apply Number_or_0_non_negative].
Qed.

Lemma currentChapter_floor_witness :
  get Ex.dropped0 "currentChapter" = VNum (Fin 0)
  ∧ Fin 0 ≠ NaN
  ∧ get (advance Ex.dropped0 (-1) 1000) "currentChapter"
    = VNum (newChapter Ex.dropped0 (-1))
  ∧ Spec.non_negative (newChapter Ex.dropped0 (-1)).
Proof.
  split; [reflexivity |]. split; [discriminate |].
  apply (proj1 (currentChapter_floor Ex.doc_empty ∅ ∅ (-1) 1000)
           Ex.dropped0 (Fin 0)); [reflexivity | discriminate].
Defined.

(** C5 fails as stated: the record stored with chapter -5 is normalised to
    an item whose chapter is -5. *)
Lemma normalised_chapter_negative :
  get (trackingItem Ex.doc_negative) "currentChapter" = VNum (Fin (-5))
  ∧ ¬ Spec.non_negative (Fin (-5)).
Proof. split; [reflexivity | discriminate]. Qed.

(** The same through applyEdit: a submitted chapter "-3" is stored as -3. *)
Example applyEdit_chapter_negative :
  get (applyEdit Ex.planned {[ "currentChapter" := VStr "-3" ]} 1000) "currentChapter"
  = VNum (Fin (-3)).
Proof. reflexivity. Qed.

(** C6, as amended: a created item has rating 0. The normaliser and
    applyEdit store the stored or submitted rating, when it is a modelled
    value (a number, or text that denotes an integer of magnitude at most
    2^53 or no number at all), coerced to a number (0 when missing or
    non-numeric) and apply no bound: an integer rating z is kept as z, so
    the result lies in [0,10] exactly when the input does. *)
Theorem rating_unbounded
    (r : apiResult) (doc : document) (isEditing updatedData : obj) (now : Z) :
  (get (newItem r now) "rating" = VNum (Fin 0) ∧ Spec.in_range 0 10 (Fin 0))
  ∧ (modelled (get (doc_data doc) "rating") = true →
     get (trackingItem doc) "rating"
     = VNum (Spec.number_of (get (doc_data doc) "rating")))
  ∧ (modelled (get updatedData "rating") = true →
     get (applyEdit isEditing updatedData now) "rating"
     = VNum (Spec.number_of (get updatedData "rating")))
  ∧ (∀ z, get (doc_data doc) "rating" = VNum (Fin z) →
          get (trackingItem doc) "rating" = VNum (Fin z))
  ∧ (∀ z, get updatedData "rating" = VNum (Fin z) →
          get (applyEdit isEditing updatedData now) "rating" = VNum (Fin z)).
Proof.
  split; [| split; [| split; [| split]]].
  - split; [reflexivity |]. exists 0. split; [reflexivity | lia].
  - intros _. rewrite trackingItem_rating. f_equal. apply Number_or_0_number_of.
  - intros _. rewrite applyEdit_rating. f_equal. apply Number_or_0_number_of.
  - intros z Hz. rewrite trackingItem_rating, Hz. f_equal. apply Number_or_0_num.
  - intros z Hz. rewrite applyEdit_rating, Hz. f_equal. apply Number_or_0_num.
Qed.

Lemma rating_unbounded_witness :
  get Ex.form_rating11 "rating" = VNum (Fin 11)
  ∧ get (applyEdit Ex.planned Ex.form_rating11 1000) "rating" = VNum (Fin 11).
Proof.
  split; [reflexivity |].
  apply (proj2 (proj2 (proj2 (proj2
           (rating_unbounded Ex.candidate7 Ex.doc_empty Ex.planned
              Ex.form_rating11 1000)))) 11).
  reflexivity.
Defined.

(** C6 fails as stated: a submitted rating of 11 is stored as 11. *)
Lemma applyEdit_rating_above_ten :
  get (applyEdit Ex.planned Ex.form_rating11 1000) "rating" = VNum (Fin 11)
  ∧ ¬ Spec.in_range 0 10 (Fin 11).
Proof.
  split; [reflexivity |].
  intros [z [Hz Hr]]. injection Hz as <-. lia.
Qed.

(** C7, as amended: the normaliser is total and every normalised property
    is present in its result; currentChapter, totalChapters and rating are
    0 whenever the stored field is missing or non-numeric (the number NaN,
    or text that is not a numeric literal), and the converted number
    whenever the stored field is a modelled value (a number, or text that
    denotes an integer of magnitude at most 2^53 or no number at all);
    lastUpdated is 0 whenever the stored field
    is missing or otherwise falsy, and is kept as stored, without
    conversion, when truthy; notes is the empty string whenever missing;
    every other stored property passes through unchanged, and id is the
    document's id unless the record stores one. *)
Theorem trackingItem_defaults (doc : document) :
  (∀ k, k ∈ "id"%string :: Spec.normalised_fields → is_Some (trackingItem doc !! k))
  ∧ (∀ k, k ∈ Spec.numeric_fields →
          (Spec.missing (get (doc_data doc) k) ∨ Spec.non_numeric (get (doc_data doc) k) →
           get (trackingItem doc) k = VNum (Fin 0))
          ∧ (modelled (get (doc_data doc) k) = true →
             get (trackingItem doc) k
             = VNum (Spec.number_of (get (doc_data doc) k))))
  ∧ (Spec.missing (get (doc_data doc) "lastUpdated") →
     get (trackingItem doc) "lastUpdated" = VNum (Fin 0))
  ∧ (get (trackingItem doc) "lastUpdated"
     = if ToBoolean (get (doc_data doc) "lastUpdated")
       then get (doc_data doc) "lastUpdated" else VNum (Fin 0))
  ∧ (Spec.missing (get (doc_data doc) "notes") →
     get (trackingItem doc) "notes" = VStr "")
  ∧ (∀ k v, k ∉ Spec.normalised_fields → doc_data doc !! k = Some v →
            trackingItem doc !! k = Some v)
  ∧ (doc_data doc !! "id"%string = None →
     trackingItem doc !! "id"%string = Some (VStr (doc_id doc))).
Proof.
  split; [| split; [| split; [| split; [| split; [| split]]]]].
  - intros k Hk. apply elem_of_cons in Hk as [-> | Hk].
    + rewrite (trackingItem_other doc _ id_not_normalised).
      rewrite lookup_union. rewrite lookup_singleton_eq.
      destruct (doc_data doc !! "id"%string); eexists; reflexivity.
    + unfold Spec.normalised_fields in Hk. unfold trackingItem.
      repeat (apply elem_of_cons in Hk as [-> | Hk];
              [repeat (rewrite lookup_insert_ne by discriminate);
               rewrite lookup_insert_eq; eexists; reflexivity |]).
      by apply elem_of_nil in Hk.
  - intros k Hk. rewrite (trackingItem_numeric doc k Hk). split.
    + intros [Hm | Hn]; f_equal.
      * by apply Number_or_0_missing.
      * by apply Number_or_0_non_numeric.
    + intros _. f_equal. apply Number_or_0_number_of.
  - intros [H | H]; rewrite trackingItem_lastUpdated, H; reflexivity.
  - apply trackingItem_lastUpdated.
  - intros [H | H]; rewrite trackingItem_notes, H; reflexivity.
  - intros k v Hk Hv. rewrite (trackingItem_other doc k Hk).
    by apply lookup_union_Some_l.
  - intros Hid. rewrite (trackingItem_other doc _ id_not_normalised).
    rewrite lookup_union, Hid, lookup_singleton_eq. reflexivity.
Qed.

Lemma trackingItem_defaults_witness :
  "rating"%string ∈ Spec.numeric_fields
  ∧ Spec.missing (get (doc_data Ex.doc_negative) "rating")
  ∧ get (trackingItem Ex.doc_negative) "rating" = VNum (Fin 0)
  ∧ trackingItem Ex.doc_negative !! "id"%string = Some (VStr "d1").
Proof.
  assert (Hin : "rating"%string ∈ Spec.numeric_fields)
    by (unfold Spec.numeric_fields; rewrite !elem_of_cons; tauto).
  assert (Hm : Spec.missing (get (doc_data Ex.doc_negative) "rating"))
    by (left; reflexivity).
  destruct (trackingItem_defaults Ex.doc_negative)
    as (_ & Hnum & _ & _ & _ & _ & Hid).
  split; [exact Hin |]. split; [exact Hm |].
  split; [apply (proj1 (Hnum _ Hin)); left; exact Hm | apply Hid; reflexivity].
Defined.

(** C7 fails as stated: a stored lastUpdated that is a non-numeric string
    is kept as it is, not replaced by 0. *)
Lemma normalised_lastUpdated_text :
  Spec.non_numeric (get (doc_data Ex.doc_text_stamp) "lastUpdated")
  ∧ get (trackingItem Ex.doc_text_stamp) "lastUpdated" = VStr "yesterday"
  ∧ get (trackingItem Ex.doc_text_stamp) "lastUpdated" ≠ VNum (Fin 0).
Proof. split; [reflexivity |]. split; [reflexivity | discriminate]. Qed.

(** *** The order of sort keys *)

Lemma num_compare_eq (a b : num) : Spec.num_compare a b = Eq ↔ a = b.
Proof.
  destruct a as [| |x|], b as [| |y|]; simpl;
    try (split; [discriminate | discriminate]); try (split; reflexivity).
  rewrite Z.compare_eq_iff. split; congruence.
Qed.

Lemma num_compare_antisym (a b : num) :
  Spec.num_compare b a = CompOpp (Spec.num_compare a b).
Proof.
  destruct a as [| |x|], b as [| |y|]; simpl; try reflexivity.
  apply Z.compare_antisym.
Qed.

Lemma num_compare_trans (a b c : num) :
  Spec.num_compare a b ≠ Gt → Spec.num_compare b c ≠ Gt →
  Spec.num_compare a c ≠ Gt.
Proof.
  destruct a as [| |x|], b as [| |y|], c as [| |z|]; simpl;
    try congruence.
  rewrite !Z.compare_gt_iff. lia.
Qed.

Lemma string_compare_eq (a b : string) : String.compare a b = Eq ↔ a = b.
Proof. apply String_as_OT.cmp_eq. Qed.

Lemma string_compare_trans (a b c : string) :
  String.compare a b ≠ Gt → String.compare b c ≠ Gt → String.compare a c ≠ Gt.
Proof.
  intros Hab Hbc.
  destruct (String.compare a b) eqn:Eab; [| | congruence].
  - apply string_compare_eq in Eab. by subst.
  - destruct (String.compare b c) eqn:Ebc; [| | congruence].
    + apply string_compare_eq in Ebc. subst. by rewrite Eab.
    + apply String_as_OT.cmp_lt in Eab, Ebc.
      pose proof (String_as_OT.lt_trans _ _ _ Eab Ebc) as Hac.
      apply String_as_OT.cmp_lt in Hac. unfold String_as_OT.cmp in Hac.
      by rewrite Hac.
Qed.

Lemma key_compare_eq (a b : Spec.sort_key) : Spec.key_compare a b = Eq ↔ a = b.
Proof.
  destruct a as [x | x], b as [y | y]; simpl;
    try (split; [discriminate | discriminate]).
  - rewrite string_compare_eq. split; congruence.
  - rewrite num_compare_eq. split; congruence.
Qed.

Lemma key_compare_antisym (a b : Spec.sort_key) :
  Spec.key_compare b a = CompOpp (Spec.key_compare a b).
Proof.
  destruct a as [x | x], b as [y | y]; simpl; try reflexivity.
  - apply String.compare_antisym.
  - apply num_compare_antisym.
Qed.

Lemma key_compare_trans (a b c : Spec.sort_key) :
  Spec.key_compare a b ≠ Gt → Spec.key_compare b c ≠ Gt →
  Spec.key_compare a c ≠ Gt.
Proof.
  destruct a as [x | x], b as [y | y], c as [z | z]; simpl; try congruence.
  - apply string_compare_trans.
  - apply num_compare_trans.
Qed.

Lemma CompOpp_not_Gt (c : comparison) : CompOpp c ≠ Gt ↔ c ≠ Lt.
Proof. destruct c; simpl; split; congruence. Qed.

(** The comparison of a direction is an order of the keys as well. *)
Lemma directed_eq (d : string) (a b : Spec.sort_key) :
  Spec.directed d (Spec.key_compare a b) = Eq ↔ a = b.
Proof.
  unfold Spec.directed. rewrite <- key_compare_eq.
  case_decide; [reflexivity |].
  destruct (Spec.key_compare a b); simpl; split; congruence.
Qed.

Lemma directed_antisym (d : string) (a b : Spec.sort_key) :
  Spec.directed d (Spec.key_compare b a)
  = CompOpp (Spec.directed d (Spec.key_compare a b)).
Proof.
  unfold Spec.directed. rewrite (key_compare_antisym a b).
  case_decide; reflexivity.
Qed.

Lemma directed_trans (d : string) (a b c : Spec.sort_key) :
  Spec.directed d (Spec.key_compare a b) ≠ Gt →
  Spec.directed d (Spec.key_compare b c) ≠ Gt →
  Spec.directed d (Spec.key_compare a c) ≠ Gt.
Proof.
  unfold Spec.directed. case_decide; [apply key_compare_trans |].
  rewrite (key_compare_antisym b a), (key_compare_antisym c b),
    (key_compare_antisym c a), !CompOpp_involutive.
  intros Hba Hcb. by apply (key_compare_trans c b a).
Qed.

(** *** The comparator *)

Lemma num_ltb_compare (x y : num) :
  x ≠ NaN → y ≠ NaN →
  num_ltb x y = match Spec.num_compare x y with Lt => true | _ => false end.
Proof.
  destruct x as [| |x|], y as [| |y|]; simpl; try congruence; intros _ _.
  unfold Z.ltb. reflexivity.
Qed.

Lemma or_title (v : val) :
  Spec.text_or_missing v = true → js_or v (VStr "") = VStr (Spec.title_text v).
Proof.
  unfold js_or. destruct v as [| |b|n|s|p]; simpl; try reflexivity.
  - destruct b; [discriminate | reflexivity].
  - destruct (num_truthy n); [discriminate | reflexivity].
  - intros _. destruct (String.eqb_spec s ""); simpl; congruence.
  - discriminate.
Qed.

(** The answer of the comparator once both keys are computed. *)
Lemma three_way (d : string) (ltab ltba : bool) (c : comparison) :
  ltab = match c with Lt => true | _ => false end →
  ltba = match c with Gt => true | _ => false end →
  (if ltab then Ok (if String.eqb d "asc" then -1 else 1)
   else if ltba then Ok (if String.eqb d "asc" then 1 else -1)
   else Ok 0)
  = Ok (Spec.sign (Spec.directed d c)).
Proof.
  intros -> ->. unfold Spec.directed.
  destruct (String.eqb_spec d "asc"); case_decide; try congruence;
    destruct c; reflexivity.
Qed.

Lemma compareItems_keys (sortField sortDirection : string) (a b : obj) :
  Spec.sortable sortField a → Spec.sortable sortField b →
  compareItems sortField sortDirection a b
  = Ok (Spec.sign (Spec.directed sortDirection
          (Spec.key_compare (Spec.key_of sortField a) (Spec.key_of sortField b)))).
Proof.
  intros Ha Hb. unfold compareItems, Spec.key_of.
  destruct (String.eqb_spec sortField "title") as [-> | Hf].
  - rewrite !decide_True by reflexivity.
    rewrite (or_title _ (Ha eq_refl)), (or_title _ (Hb eq_refl)). simpl.
    apply three_way; unfold js_lt; simpl; unfold String.ltb.
    + reflexivity.
    + rewrite String.compare_antisym.
      by destruct (String.compare _ _).
  - rewrite !decide_False by assumption. simpl.
    rewrite !Number_or_0_number_of.
    assert (Hn : ∀ v, Spec.number_of v ≠ NaN)
      by (intros v; rewrite <- Number_or_0_number_of; apply Number_or_0_not_NaN).
    apply three_way; unfold js_lt; simpl.
    + apply num_ltb_compare; apply Hn.
    + rewrite (num_ltb_compare _ _ (Hn _) (Hn _)), num_compare_antisym.
      by destruct (Spec.num_compare _ _).
Qed.

(** *** Insertion with a comparator that answers by keys *)

Section StableSort.

Context {K : Type} `{EqDecision K}.
Variable cmp : obj → obj → result Z.
Variable key : obj → K.
Variable kcmp : K → K → comparison.
Variable accepts : obj → Prop.

Hypothesis kcmp_eq : ∀ a b, kcmp a b = Eq ↔ a = b.
Hypothesis kcmp_antisym : ∀ a b, kcmp b a = CompOpp (kcmp a b).
Hypothesis kcmp_trans : ∀ a b c, kcmp a b ≠ Gt → kcmp b c ≠ Gt → kcmp a c ≠ Gt.
Hypothesis cmp_keys :
  ∀ a b, accepts a → accepts b → cmp a b = Ok (Spec.sign (kcmp (key a) (key b))).

Abbreviation before := (λ a b : obj, kcmp (key a) (key b) ≠ Gt).

Lemma before_cons (x y : obj) (l : list obj) :
  before x y → Forall (before y) l → Forall (before x) (y :: l).
Proof using kcmp_trans.
  intros Hxy Hyl. constructor; [exact Hxy |].
  eapply Forall_impl; [exact Hyl |]. intros z Hz.
  by apply (kcmp_trans _ (key y)).
Qed.

Lemma insert_placed (x : obj) (l : list obj) :
  accepts x → Forall accepts l → StronglySorted before l →
  ∃ r, insert cmp x l = Ok r ∧ Spec.stably_sorted key before (x :: l) r.
Proof using kcmp_eq kcmp_antisym kcmp_trans cmp_keys.
  intros Hx. induction l as [| y l IH]; intros Hl Hs.
  - exists [x]. split; [reflexivity |]. split; [done |]. split; [| done].
    repeat constructor.
  - apply Forall_cons in Hl as [Hy Hl].
    pose proof Hs as Hsyl.
    apply StronglySorted_inv in Hs as [Hs Hyl].
    simpl. rewrite (cmp_keys x y Hx Hy). simpl.
    destruct (kcmp (key x) (key y)) eqn:Exy; simpl.
    + exists (x :: y :: l). split; [reflexivity |]. split; [done |].
      split; [| done]. constructor; [exact Hsyl |].
      apply before_cons; [congruence | exact Hyl].
    + exists (x :: y :: l). split; [reflexivity |]. split; [done |].
      split; [| done]. constructor; [exact Hsyl |].
      apply before_cons; [congruence | exact Hyl].
    + destruct (IH Hl Hs) as (r & -> & Hperm & Hsort & Hstable). simpl.
      exists (y :: r). split; [reflexivity |]. split; [| split].
      * rewrite Hperm. apply Permutation_swap.
      * constructor; [exact Hsort |]. rewrite Hperm. constructor; [| exact Hyl].
        rewrite kcmp_antisym, Exy. discriminate.
      * intros k. rewrite filter_cons, Hstable, !filter_cons.
        repeat case_decide; try reflexivity.
        assert (kcmp (key x) (key y) = Eq) by (apply kcmp_eq; congruence).
        congruence.
Qed.

Lemma sort_placed (l : list obj) :
  Forall accepts l →
  ∃ r, sort cmp l = Ok r ∧ Spec.stably_sorted key before l r.
Proof using kcmp_eq kcmp_antisym kcmp_trans cmp_keys.
  induction l as [| x l IH]; intros Hl.
  - exists []. split; [reflexivity |]. split; [done |].
    split; [constructor | done].
  - apply Forall_cons in Hl as [Hx Hl].
    destruct (IH Hl) as (s & Hsort & Hperm & Hs & Hstable).
    assert (Hall : Forall accepts s) by (by rewrite Hperm).
    destruct (insert_placed x s Hx Hall Hs) as (r & Hins & Hp & Hr & Hst).
    exists r. simpl. rewrite Hsort. simpl. split; [exact Hins |].
    split; [| split].
    + by rewrite Hp, Hperm.
    + exact Hr.
    + intros k. by rewrite Hst, !filter_cons, Hstable.
Qed.

End StableSort.

(** C8: for every collection whose items the comparator accepts (under the
    sort field title, titles that are text or missing) and whose keys the
    model reads as the code does (under a numeric sort field, values that
    are numbers or text denoting an integer, of magnitude at most 2^53, or
    no number at all) and every sort field and direction: the comparator
    answers by the keys of the two items,
    the lower-cased title with a missing title as the empty string under
    title, the number of the field with missing and non-numeric values as 0
    otherwise; it answers 0 exactly for items of equal keys; a direction
    other than asc inverts that answer and nothing else; the sort succeeds
    and returns the items ordered by these keys, and the items of any one
    key keep the relative order they had in the input, whatever the
    direction. *)
Theorem sort_step_stable (items : list obj) (sortField sortDirection : string) :
  Forall (Spec.sortable sortField) items →
  Forall (Spec.modelled_key sortField) items →
  (∀ a b, a ∈ items → b ∈ items →
     compareItems sortField sortDirection a b
     = Ok (Spec.sign (Spec.directed sortDirection
             (Spec.key_compare (Spec.key_of sortField a) (Spec.key_of sortField b))))
     ∧ (compareItems sortField sortDirection a b = Ok 0
        ↔ Spec.key_of sortField a = Spec.key_of sortField b)
     ∧ (sortDirection ≠ "asc"%string →
        compareItems sortField sortDirection a b
        = compareItems sortField "asc" b a))
  ∧ (∃ out, sorted items sortField sortDirection = Ok out
       ∧ Spec.stably_sorted (Spec.key_of sortField)
           (Spec.in_order sortField sortDirection) items out).
Proof.
  intros Hall _. rewrite Forall_forall in Hall. split.
  - intros a b Ha Hb. rewrite !compareItems_keys by (by apply Hall).
    split; [reflexivity |]. split.
    + rewrite <- (directed_eq sortDirection).
      destruct (Spec.directed _ _); simpl; split; congruence.
    + intros Hd. rewrite (key_compare_antisym (Spec.key_of sortField a)).
      unfold Spec.directed.
      rewrite decide_False by exact Hd. rewrite decide_True by reflexivity.
      reflexivity.
  - apply (sort_placed (compareItems sortField sortDirection)
             (Spec.key_of sortField)
             (λ a b, Spec.directed sortDirection (Spec.key_compare a b))
             (Spec.sortable sortField)).
    + apply directed_eq.
    + apply directed_antisym.
    + apply directed_trans.
    + intros a b. apply compareItems_keys.
    + by apply Forall_forall.
Qed.

Lemma sort_step_stable_witness :
  Forall (Spec.sortable "rating") [Ex.rated "b" "7"; Ex.rated "a" "3"; Ex.rated "c" "7"]
  ∧ Forall (Spec.modelled_key "rating")
      [Ex.rated "b" "7"; Ex.rated "a" "3"; Ex.rated "c" "7"]
  ∧ (∃ out, sorted [Ex.rated "b" "7"; Ex.rated "a" "3"; Ex.rated "c" "7"]
              "rating" "desc" = Ok out
       ∧ Spec.stably_sorted (Spec.key_of "rating") (Spec.in_order "rating" "desc")
           [Ex.rated "b" "7"; Ex.rated "a" "3"; Ex.rated "c" "7"] out).
Proof.
  assert (H : Forall (Spec.sortable "rating")
                [Ex.rated "b" "7"; Ex.rated "a" "3"; Ex.rated "c" "7"])
    by (repeat constructor; discriminate).
  assert (M : Forall (Spec.modelled_key "rating")
                [Ex.rated "b" "7"; Ex.rated "a" "3"; Ex.rated "c" "7"])
    by (repeat constructor; intros _; reflexivity).
  split; [exact H |]. split; [exact M |].
  exact (proj2 (sort_step_stable _ "rating" "desc" H M)).
Defined.

(** The order of the three rated examples: the two items of rating 7 stay
    in their input order under both directions. *)
Example sorted_ratings :
  sorted [Ex.rated "b" "7"; Ex.rated "a" "3"; Ex.rated "c" "7"] "rating" "asc"
  = Ok [Ex.rated "a" "3"; Ex.rated "b" "7"; Ex.rated "c" "7"]
  ∧ sorted [Ex.rated "b" "7"; Ex.rated "a" "3"; Ex.rated "c" "7"] "rating" "desc"
    = Ok [Ex.rated "b" "7"; Ex.rated "c" "7"; Ex.rated "a" "3"].
Proof. split; vm_compute; reflexivity. Qed.

(** The two orders of the three example titles: the two titles that differ
    in case only stay in their input order under both directions. *)
Example sorted_titles :
  sorted [Ex.banana; Ex.Apple; Ex.apple] "title" "asc"
  = Ok [Ex.Apple; Ex.apple; Ex.banana]
  ∧ sorted [Ex.banana; Ex.Apple; Ex.apple] "title" "desc"
    = Ok [Ex.banana; Ex.Apple; Ex.apple].
Proof. split; vm_compute; reflexivity. Qed.

(** A title that is a number makes the comparator throw. *)
Example sorted_title_number :
  sorted [Ex.banana; {[ "title"%string := VNum (Fin 3) ]}] "title" "asc"
  = Throw "TypeError: toLowerCase is not a function".
Proof. vm_compute. reflexivity. Qed.

(** *** handleAddItem *)

Lemma strict_eq_identifier (a v : val) :
  Spec.identifier v → (strict_eq a v = true ↔ a = v).
Proof.
  destruct v as [| |b|n|s|p], a as [| |b'|n'|s'|p']; simpl;
    try (intros _; split; (reflexivity || discriminate)); try tauto.
  - intros _. rewrite Bool.eqb_true_iff. split; congruence.
  - destruct n as [| |y|], n' as [| |x|]; simpl;
      try (intros _; split; (reflexivity || discriminate)); try tauto.
    intros _. rewrite Z.eqb_eq. split; congruence.
  - intros _. rewrite String.eqb_eq. split; congruence.
Qed.

Lemma isAlreadyTracked_spec (items : list obj) (r : apiResult) :
  isAlreadyTracked items r = true ↔ Spec.alreadyTracked items r.
Proof.
  unfold isAlreadyTracked, Spec.alreadyTracked.
  rewrite existsb_exists. split.
  - intros (item & Hin & Heq). exists item.
    split; [by apply list_elem_of_In | exact Heq].
  - intros (item & Hin & Heq). exists item.
    split; [by apply list_elem_of_In | exact Heq].
Qed.

(** C9: in a connected session, for every search candidate: when some
    tracked item has the candidate's catalog identifier (for an identifier
    that is a primitive value, when some tracked item stores that very
    value) the add action writes nothing; otherwise it writes exactly one
    new record, with status PlanToRead, currentChapter 0, rating 0, notes
    empty, and totalChapters the candidate's chapter count, or 0 when it is
    absent. *)
Theorem handleAddItem_creates
    (s : session) (items : list obj) (r : apiResult) (now : Z) :
  connected s = true →
  (Spec.alreadyTracked items r → handleAddItem s items r now = [])
  ∧ (¬ Spec.alreadyTracked items r →
     ∃ item, handleAddItem s items r now = [addDoc item]
       ∧ get item "status" = Status.PLAN_TO_READ
       ∧ get item "currentChapter" = VNum (Fin 0)
       ∧ get item "rating" = VNum (Fin 0)
       ∧ get item "notes" = VStr ""
       ∧ (Spec.missing (chapters r) → get item "totalChapters" = VNum (Fin 0))
       ∧ (∀ n, chapters r = VNum (Fin n) → get item "totalChapters" = VNum (Fin n)))
  ∧ (Spec.identifier (mal_id r) →
     (Spec.alreadyTracked items r
      ↔ ∃ item, item ∈ items ∧ get item "apiId" = mal_id r)).
Proof.
  intros Hs. unfold handleAddItem. rewrite Hs. simpl.
  pose proof (isAlreadyTracked_spec items r) as Htracked.
  split; [| split].
  - intros H. apply Htracked in H. by rewrite H.
  - intros H. destruct (isAlreadyTracked items r) eqn:E.
    + exfalso. apply H, Htracked. reflexivity.
    + exists (newItem r now).
      destruct (newItem_fields r now) as (Hst & Hc & Hr & Hn & Ht).
      repeat split; try assumption.
      * intros [Hm | Hm]; rewrite Ht, Hm; reflexivity.
      * intros n Hn'. rewrite Ht, Hn'. unfold js_or. simpl.
        destruct (Z.eqb_spec n 0); simpl; congruence.
  - intros Hid. unfold Spec.alreadyTracked.
    split; intros (item & Hin & Heq); exists item; (split; [exact Hin |]);
      by apply (strict_eq_identifier _ _ Hid).
Qed.

Lemma handleAddItem_creates_witness :
  connected Ex.connected_session = true
  ∧ Spec.alreadyTracked [Ex.tracked7] Ex.candidate7
  ∧ handleAddItem Ex.connected_session [Ex.tracked7] Ex.candidate7 1000 = []
  ∧ handleAddItem Ex.connected_session [] Ex.candidate7 1000
    = [addDoc (newItem Ex.candidate7 1000)]
  ∧ get (newItem Ex.candidate7 1000) "totalChapters" = VNum (Fin 10).
Proof.
  assert (Ht : Spec.alreadyTracked [Ex.tracked7] Ex.candidate7)
    by (exists Ex.tracked7; split; [apply list_elem_of_here | reflexivity]).
  split; [reflexivity |]. split; [exact Ht |].
  split; [| split; reflexivity].
  exact (proj1 (handleAddItem_creates Ex.connected_session [Ex.tracked7]
                  Ex.candidate7 1000 eq_refl) Ht).
Defined.

(** Without a Firestore handle the handler returns at once. *)
Example handleAddItem_disconnected :
  handleAddItem {| db := false; userId := None; isEditing := None |}
    [] Ex.candidate7 1000 = [].
Proof. reflexivity. Qed.

(** The added candidate, advanced by its ten chapters: the first rule
    applies to the PlanToRead item, which becomes Reading. *)
Example added_then_advanced :
  get (advance (newItem Ex.candidate7 1000) 10 2000) "currentChapter" = VNum (Fin 10)
  ∧ get (advance (newItem Ex.candidate7 1000) 10 2000) "status" = Status.READING.
Proof. split; vm_compute; reflexivity. Qed.

(** *** handleSearch *)

Lemma trimStart_length (s : string) :
  (String.length (trimStart s) ≤ String.length s)%nat.
Proof.
  induction s as [| c s IH]; simpl; [lia |].
  destruct (is_ws c); simpl; lia.
Qed.

Lemma trimEnd_length (s : string) :
  (String.length (trimEnd s) ≤ String.length s)%nat.
Proof.
  induction s as [| c s IH]; simpl; [lia |].
  destruct (trimEnd s); simpl in *; [destruct (is_ws c); simpl; lia | lia].
Qed.

Lemma trim_length (s : string) :
  (String.length (trim s) ≤ String.length s)%nat.
Proof.
  unfold trim. etransitivity; [apply trimEnd_length | apply trimStart_length].
Qed.

(** C10, as amended: the length that counts is that of the query with
    surrounding white space removed. When it is below 3 (in particular
    for every query shorter than 3 characters) no request is issued and the
    validation message is set; when it is 3 or more the request is issued
    for the query as typed, with limit 15. *)
Theorem handleSearch_guard (st : searchState) :
  ((String.length (query st) < 3)%nat →
   (String.length (trim (query st)) < 3)%nat)
  ∧ ((String.length (trim (query st)) < 3)%nat →
     snd (handleSearch st) = None
     ∧ error (fst (handleSearch st))
       = Some "Please enter at least 3 characters to search."%string)
  ∧ ((3 ≤ String.length (trim (query st)))%nat →
     snd (handleSearch st) = Some {| q := query st; limit := 15 |}
     ∧ error (fst (handleSearch st)) = None).
Proof.
  split; [| split].
  - pose proof (trim_length (query st)). lia.
  - intros H. unfold handleSearch.
    destruct (Nat.ltb_spec (String.length (trim (query st))) 3); [| lia].
    split; reflexivity.
  - intros H. unfold handleSearch.
    destruct (Nat.ltb_spec (String.length (trim (query st))) 3); [lia |].
    split; reflexivity.
Qed.

Lemma handleSearch_guard_witness :
  (String.length (trim (query Ex.search_ab_space)) < 3)%nat
  ∧ snd (handleSearch Ex.search_ab_space) = None
  ∧ error (fst (handleSearch Ex.search_ab_space))
    = Some "Please enter at least 3 characters to search."%string.
Proof.
  assert (H : (String.length (trim (query Ex.search_ab_space)) < 3)%nat)
    by (vm_compute; lia).
  split; [exact H |].
  exact (proj1 (proj2 (handleSearch_guard Ex.search_ab_space)) H).
Defined.

(** C10 fails as stated: the query of two letters and a space has three
    characters, and no request is issued for it. *)
Lemma handleSearch_three_characters_rejected :
  String.length (query Ex.search_ab_space) = 3%nat
  ∧ snd (handleSearch Ex.search_ab_space) = None.
Proof. split; reflexivity. Qed.

(** ** Properties of the view, the card and the modals *)

(** *** Substrings *)

Lemma append_String (c : ascii) (s t : string) :
  (String c s ++ t)%string = String c (s ++ t)%string.
Proof. reflexivity. Qed.

Lemma prefix_append (sub s : string) :
  String.prefix sub s = true ↔ ∃ rest, s = (sub ++ rest)%string.
Proof.
  revert s. induction sub as [| a sub IH]; intros s; simpl.
  - destruct s; split; eauto.
  - destruct s as [| b s]; simpl.
    + split; [discriminate | intros [rest H]; discriminate].
    + destruct (ascii_dec a b) as [-> | Hne].
      * rewrite IH. split; intros [rest H]; exists rest;
          rewrite append_String in *; congruence.
      * split; [discriminate |].
        intros [rest H]. rewrite append_String in H. congruence.
Qed.

(** [includes] is the occurrence of a substring. *)
Lemma includes_occurs (s sub : string) :
  includes s sub = true ↔ ∃ before after, s = (before ++ sub ++ after)%string.
Proof.
  induction s as [| c s IH].
  - destruct sub as [| a sub]; simpl; split.
    + intros _. exists ""%string, ""%string. reflexivity.
    + reflexivity.
    + discriminate.
    + intros ([| ? ?] & after & H); discriminate.
  - cbn [includes]. rewrite orb_true_iff, prefix_append, IH. split.
    + intros [[rest H] | (before & after & H)].
      * exists ""%string, rest. exact H.
      * exists (String c before), after. rewrite append_String. congruence.
    + intros ([| c' before] & after & H).
      * left. eauto.
      * right. exists before, after. rewrite append_String in H. congruence.
Qed.

Lemma includes_empty (s : string) : includes s "" = true.
Proof. apply includes_occurs. exists ""%string, s. reflexivity. Qed.

(** *** The two filters *)

Lemma statusFilter_spec (filterStatus : string) (item : obj) :
  statusFilter filterStatus item = true
  ↔ filterStatus = "All"%string ∨ get item "status" = VStr filterStatus.
Proof.
  unfold statusFilter.
  rewrite orb_true_iff, String.eqb_eq, strict_eq_str. reflexivity.
Qed.

Lemma visible_shown (filterStatus searchQuery : string) (item : obj) :
  ViewSpec.visible filterStatus searchQuery item = true
  ↔ ViewSpec.shown filterStatus searchQuery item.
Proof.
  unfold ViewSpec.visible, ViewSpec.shown.
  rewrite andb_true_iff, statusFilter_spec, includes_occurs. reflexivity.
Qed.

Lemma searchFilter_text (searchQuery : string) (item : obj) :
  Spec.text_or_missing (get item "title") = true →
  searchFilter searchQuery item
  = Ok (includes (lower (Spec.title_text (get item "title"))) (lower searchQuery)).
Proof. intros Ht. unfold searchFilter. by rewrite (or_title _ Ht). Qed.

Lemma searchFilter_no_text (searchQuery : string) (item : obj) :
  Spec.text_or_missing (get item "title") = false →
  searchFilter searchQuery item = Throw "TypeError: toLowerCase is not a function".
Proof.
  unfold searchFilter, js_or.
  destruct (get item "title") as [| |b|n|s|p]; simpl; try discriminate.
  - destruct b; [reflexivity | discriminate].
  - destruct (num_truthy n); [reflexivity | discriminate].
  - reflexivity.
Qed.

Lemma toLowerCase_one_error (v : val) : ViewSpec.one_error (toLowerCase v).
Proof. intros e. destruct v; simpl; congruence. Qed.

Lemma searchFilter_one_error (searchQuery : string) (item : obj) :
  ViewSpec.one_error (searchFilter searchQuery item).
Proof.
  intros e. unfold searchFilter.
  pose proof (toLowerCase_one_error (js_or (get item "title") (VStr ""))) as H.
  destruct (toLowerCase _); simpl; [discriminate |].
  intros [= <-]. by apply H.
Qed.

Lemma compareItems_one_error (sortField sortDirection : string) (a b : obj) :
  ViewSpec.one_error (compareItems sortField sortDirection a b).
Proof.
  intros e. unfold compareItems.
  destruct (String.eqb sortField "title").
  - pose proof (toLowerCase_one_error (js_or (get a sortField) (VStr ""))) as Ha.
    pose proof (toLowerCase_one_error (js_or (get b sortField) (VStr ""))) as Hb.
    destruct (toLowerCase (js_or (get a sortField) _)); simpl;
      [| intros [= <-]; by apply Ha].
    destruct (toLowerCase (js_or (get b sortField) _)); simpl;
      [| intros [= <-]; by apply Hb].
    repeat destruct (js_lt _ _); discriminate.
  - simpl. repeat destruct (js_lt _ _); discriminate.
Qed.

Lemma filterM_pure (p : obj → result bool) (f : obj → bool) (l : list obj) :
  (∀ x, x ∈ l → p x = Ok (f x)) →
  filterM p l = Ok (filter (λ x, f x = true) l).
Proof.
  induction l as [| x l IH]; intros Hp; [reflexivity |].
  simpl. rewrite (Hp x) by apply list_elem_of_here. simpl.
  rewrite IH by (intros y Hy; apply Hp; by apply list_elem_of_further). simpl.
  rewrite filter_cons. destruct (f x); by case_decide.
Qed.

Lemma filterM_throws (p : obj → result bool) (l : list obj) (x : obj) (e : string) :
  (∀ y e', p y = Throw e' → e' = e) →
  x ∈ l → p x = Throw e → filterM p l = Throw e.
Proof.
  intros Hone. induction l as [| y l IH]; intros Hx Hthrow.
  - by apply elem_of_nil in Hx.
  - simpl. destruct (p y) as [keep | e'] eqn:Ey; simpl.
    + apply elem_of_cons in Hx as [-> | Hx]; [congruence |].
      by rewrite (IH Hx Hthrow).
    + f_equal. by apply (Hone y).
Qed.

Lemma List_filter_filter (f g : obj → bool) (l : list obj) :
  filter (λ x, g x = true) (List.filter f l)
  = filter (λ x, f x && g x = true) l.
Proof.
  induction l as [| x l IH]; [reflexivity |]. simpl.
  rewrite (filter_cons (λ x, f x && g x = true)).
  destruct (f x); simpl.
  - rewrite filter_cons, IH. reflexivity.
  - exact IH.
Qed.

Lemma StronglySorted_filter {A : Type} (R : A → A → Prop) (P : A → Prop)
    `{∀ x, Decision (P x)} (l : list A) :
  StronglySorted R l → StronglySorted R (filter P l).
Proof.
  induction 1 as [| x l Hs IH Hx]; [constructor |].
  rewrite filter_cons. case_decide; [| exact IH].
  constructor; [exact IH |].
  rewrite Forall_forall in *. intros y Hy.
  apply list_elem_of_filter in Hy as [_ Hy]. by apply Hx.
Qed.

(** *** The sort, whatever the comparator answers *)

Lemma insert_Ok_perm (cmp : obj → obj → result Z) (x : obj) (l r : list obj) :
  insert cmp x l = Ok r → r ≡ₚ x :: l.
Proof.
  revert r. induction l as [| y l IH]; intros r; simpl.
  - by intros [= <-].
  - destruct (cmp x y) as [c | e]; simpl; [| discriminate].
    destruct (c <=? 0); [by intros [= <-] |].
    destruct (insert cmp x l) as [r' | e]; simpl; [| discriminate].
    intros [= <-]. rewrite (IH r' eq_refl). apply Permutation_swap.
Qed.

Lemma sort_Ok_perm (cmp : obj → obj → result Z) (l r : list obj) :
  sort cmp l = Ok r → r ≡ₚ l.
Proof.
  revert r. induction l as [| x l IH]; intros r; simpl.
  - by intros [= <-].
  - destruct (sort cmp l) as [s | e]; simpl; [| discriminate].
    intros H. rewrite (insert_Ok_perm _ _ _ _ H). by rewrite (IH s eq_refl).
Qed.

Lemma insert_one_error (cmp : obj → obj → result Z) (x : obj) (l : list obj) :
  (∀ a b, ViewSpec.one_error (cmp a b)) → ViewSpec.one_error (insert cmp x l).
Proof.
  intros Hcmp. induction l as [| y l IH]; intros e; simpl; [discriminate |].
  pose proof (Hcmp x y) as Hxy.
  destruct (cmp x y) as [c | e']; simpl; [| intros [= <-]; by apply Hxy].
  destruct (c <=? 0); [discriminate |].
  destruct (insert cmp x l) as [r | e']; simpl; [discriminate |].
  intros [= <-]. by apply IH.
Qed.

Lemma sort_one_error (cmp : obj → obj → result Z) (l : list obj) :
  (∀ a b, ViewSpec.one_error (cmp a b)) → ViewSpec.one_error (sort cmp l).
Proof.
  intros Hcmp. induction l as [| x l IH]; intros e; simpl; [discriminate |].
  destruct (sort cmp l) as [s | e']; simpl.
  - apply insert_one_error, Hcmp.
  - intros [= <-]. by apply IH.
Qed.

Section SortedInput.

Context {K : Type}.
Variable cmp : obj → obj → result Z.
Variable key : obj → K.
Variable kcmp : K → K → comparison.
Variable accepts : obj → Prop.

Hypothesis cmp_keys :
  ∀ a b, accepts a → accepts b → cmp a b = Ok (Spec.sign (kcmp (key a) (key b))).

(** A collection that is in order already is returned as it is. *)
Lemma sort_ordered (l : list obj) :
  Forall accepts l →
  StronglySorted (λ a b, kcmp (key a) (key b) ≠ Gt) l →
  sort cmp l = Ok l.
Proof using cmp_keys.
  induction l as [| x l IH]; intros Hl Hs; [reflexivity |].
  apply Forall_cons in Hl as [Hx Hl].
  apply StronglySorted_inv in Hs as [Hs Hxl].
  simpl. rewrite (IH Hl Hs). simpl.
  destruct l as [| y l]; [reflexivity |]. simpl.
  apply Forall_cons in Hl as [Hy _]. apply Forall_cons in Hxl as [Hxy _].
  rewrite (cmp_keys x y Hx Hy). simpl.
  destruct (kcmp (key x) (key y)); simpl; [reflexivity | reflexivity | congruence].
Qed.

End SortedInput.

(** *** The view: sortedAndFilteredItems *)

Lemma titled_sortable (items : list obj) (sortField : string) :
  ViewSpec.titled items → Forall (Spec.sortable sortField) items.
Proof.
  intros Ht. eapply Forall_impl; [exact Ht |]. intros item Hi _. exact Hi.
Qed.

Lemma filter_comm {A : Type} (P Q : A → Prop)
    `{!∀ x, Decision (P x), !∀ x, Decision (Q x)} (l : list A) :
  filter P (filter Q l) = filter Q (filter P l).
Proof. rewrite !list_filter_filter. apply list_filter_iff. tauto. Qed.

Lemma sorted_placed (items : list obj) (sortField sortDirection : string) :
  Forall (Spec.sortable sortField) items →
  ∃ out, sorted items sortField sortDirection = Ok out
    ∧ Spec.stably_sorted (Spec.key_of sortField)
        (Spec.in_order sortField sortDirection) items out.
Proof.
  intros Hall.
  apply (sort_placed (compareItems sortField sortDirection)
           (Spec.key_of sortField)
           (λ a b, Spec.directed sortDirection (Spec.key_compare a b))
           (Spec.sortable sortField));
    [apply directed_eq | apply directed_antisym | apply directed_trans
    | intros a b; apply compareItems_keys | exact Hall].
Qed.

(** With titles that are text or missing, the view is the sorted
    collection without the items that are not visible. *)
Lemma view_filter (items out : list obj)
    (sortField sortDirection filterStatus searchQuery : string) :
  ViewSpec.titled items →
  sorted items sortField sortDirection = Ok out →
  sortedAndFilteredItems items sortField sortDirection filterStatus searchQuery
  = Ok (filter (λ x, ViewSpec.visible filterStatus searchQuery x = true) out).
Proof.
  intros Ht Hs. unfold sortedAndFilteredItems. rewrite Hs. simpl.
  pose proof (sort_Ok_perm _ _ _ Hs) as Hperm.
  rewrite (filterM_pure _
             (λ x, includes (lower (Spec.title_text (get x "title")))
                            (lower searchQuery))).
  - f_equal. apply List_filter_filter.
  - intros x Hx. apply searchFilter_text.
    apply list_elem_of_In, filter_In in Hx as [Hx _].
    apply list_elem_of_In in Hx. rewrite Hperm in Hx.
    unfold ViewSpec.titled in Ht. rewrite Forall_forall in Ht. by apply Ht.
Qed.

(** X1: when every title is text or missing, the view succeeds; it holds
    exactly the items of the collection that the status filter and the
    search query show (status filter All or the item's status; the
    lower-cased query occurring in the lower-cased title); and when the
    keys are read as the code reads them (under a numeric sort field,
    values that are numbers or text denoting an integer, of magnitude at
    most 2^53, or no number at all), it holds them in the order of the
    sort, the visible items of one key in their input order. *)
Theorem view_shows (items : list obj)
    (sortField sortDirection filterStatus searchQuery : string) :
  ViewSpec.titled items →
  ∃ out,
    sortedAndFilteredItems items sortField sortDirection filterStatus searchQuery
    = Ok out
    ∧ (∀ x, x ∈ out ↔ x ∈ items ∧ ViewSpec.shown filterStatus searchQuery x)
    ∧ (Forall (Spec.modelled_key sortField) items →
       StronglySorted (Spec.in_order sortField sortDirection) out
       ∧ ∀ k, filter (λ x, Spec.key_of sortField x = k) out
              = filter (λ x, Spec.key_of sortField x = k)
                  (filter (λ x, ViewSpec.visible filterStatus searchQuery x = true)
                     items)).
Proof.
  intros Ht.
  destruct (sorted_placed items sortField sortDirection
              (titled_sortable _ _ Ht)) as (s & Hs & Hperm & Hsort & Hstable).
  eexists. split; [by apply view_filter |]. split; [| intros _; split].
  - intros x. rewrite list_elem_of_filter, visible_shown, Hperm. tauto.
  - by apply StronglySorted_filter.
  - intros k. rewrite filter_comm, Hstable. apply filter_comm.
Qed.

Lemma view_shows_witness :
  ViewSpec.titled ViewEx.shelf
  ∧ sortedAndFilteredItems ViewEx.shelf "title" "asc" "All" "APP"
    = Ok [Ex.Apple; Ex.apple]
  ∧ ∃ out,
      sortedAndFilteredItems ViewEx.shelf "title" "asc" "All" "APP" = Ok out
      ∧ (∀ x, x ∈ out ↔ x ∈ ViewEx.shelf ∧ ViewSpec.shown "All" "APP" x)
      ∧ (Forall (Spec.modelled_key "title") ViewEx.shelf →
         StronglySorted (Spec.in_order "title" "asc") out
         ∧ ∀ k, filter (λ x, Spec.key_of "title" x = k) out
                = filter (λ x, Spec.key_of "title" x = k)
                    (filter (λ x, ViewSpec.visible "All" "APP" x = true)
                       ViewEx.shelf)).
Proof.
  assert (H : ViewSpec.titled ViewEx.shelf) by (repeat constructor).
  split; [exact H |]. split; [vm_compute; reflexivity |].
  exact (view_shows ViewEx.shelf "title" "asc" "All" "APP" H).
Defined.

(** X2: an item that passes the status filter and whose title is neither
    text nor missing (a number, true, an object) makes the whole view throw
    the TypeError of toLowerCase, under every sort field, direction and
    search query. *)
Theorem view_throws (items : list obj) (x : obj)
    (sortField sortDirection filterStatus searchQuery : string) :
  x ∈ items →
  statusFilter filterStatus x = true →
  Spec.text_or_missing (get x "title") = false →
  sortedAndFilteredItems items sortField sortDirection filterStatus searchQuery
  = Throw "TypeError: toLowerCase is not a function".
Proof.
  intros Hx Hstatus Htitle. unfold sortedAndFilteredItems.
  destruct (sorted items sortField sortDirection) as [s | e] eqn:Hs; simpl.
  - apply (filterM_throws _ _ x).
    + intros y e. apply searchFilter_one_error.
    + apply list_elem_of_In, filter_In. split; [| exact Hstatus].
      apply list_elem_of_In. by rewrite (sort_Ok_perm _ _ _ Hs).
    + by apply searchFilter_no_text.
  - f_equal. revert Hs. apply sort_one_error. intros a b.
    apply compareItems_one_error.
Qed.

Lemma view_throws_witness :
  ViewEx.numbered ∈ [Ex.banana; ViewEx.numbered]
  ∧ statusFilter "All" ViewEx.numbered = true
  ∧ Spec.text_or_missing (get ViewEx.numbered "title") = false
  ∧ sortedAndFilteredItems [Ex.banana; ViewEx.numbered] "rating" "desc" "All" ""
    = Throw "TypeError: toLowerCase is not a function".
Proof.
  assert (H : ViewEx.numbered ∈ [Ex.banana; ViewEx.numbered])
    by (apply list_elem_of_further, list_elem_of_here).
  split; [exact H |]. split; [reflexivity |]. split; [reflexivity |].
  exact (view_throws _ _ "rating" "desc" "All" "" H eq_refl eq_refl).
Defined.

Lemma filter_all {A : Type} (P : A → Prop) `{!∀ x, Decision (P x)} (l : list A) :
  (∀ x, P x) → filter P l = l.
Proof.
  intros HP. induction l as [| x l IH]; [reflexivity |].
  rewrite filter_cons, decide_True by apply HP. by rewrite IH.
Qed.

(** X3: with the status filter All and an empty search query (the state
    the page opens in) nothing is filtered out: the view is the sorted
    collection, for a collection whose titles are text or missing. *)
Theorem view_unfiltered (items : list obj) (sortField sortDirection : string) :
  ViewSpec.titled items →
  sortedAndFilteredItems items sortField sortDirection "All" ""
  = sorted items sortField sortDirection
  ∧ ∃ out, sorted items sortField sortDirection = Ok out ∧ out ≡ₚ items.
Proof.
  intros Ht.
  destruct (sorted_placed items sortField sortDirection
              (titled_sortable _ _ Ht)) as (s & Hs & Hperm & _).
  split; [| by exists s].
  rewrite (view_filter _ _ _ _ _ _ Ht Hs), Hs. f_equal.
  apply filter_all. intros x.
  unfold ViewSpec.visible. simpl. apply includes_empty.
Qed.

Lemma view_unfiltered_witness :
  ViewSpec.titled ViewEx.shelf
  ∧ sortedAndFilteredItems ViewEx.shelf "title" "desc" "All" ""
    = sorted ViewEx.shelf "title" "desc".
Proof.
  assert (H : ViewSpec.titled ViewEx.shelf) by (repeat constructor).
  split; [exact H |].
  exact (proj1 (view_unfiltered ViewEx.shelf "title" "desc" H)).
Defined.

(** X4: the view of a view is that view: computed again from its own
    output under the same sort and filters, the projection returns the
    output unchanged. *)
Theorem view_of_view (items out : list obj)
    (sortField sortDirection filterStatus searchQuery : string) :
  ViewSpec.titled items →
  sortedAndFilteredItems items sortField sortDirection filterStatus searchQuery
  = Ok out →
  sortedAndFilteredItems out sortField sortDirection filterStatus searchQuery
  = Ok out.
Proof.
  intros Ht Hout.
  destruct (sorted_placed items sortField sortDirection
              (titled_sortable _ _ Ht)) as (s & Hs & Hperm & Hsort & _).
  rewrite (view_filter _ _ _ _ _ _ Ht Hs) in Hout. injection Hout as <-.
  set (V := λ x, ViewSpec.visible filterStatus searchQuery x = true).
  assert (Hsub : ∀ x, x ∈ filter V s → x ∈ items)
    by (intros x Hx; apply list_elem_of_filter in Hx as [_ Hx]; by rewrite <- Hperm).
  assert (Ht' : ViewSpec.titled (filter V s)).
  { unfold ViewSpec.titled in *. rewrite Forall_forall in *.
    intros x Hx. by apply Ht, Hsub. }
  assert (Hs' : sorted (filter V s) sortField sortDirection = Ok (filter V s)).
  { apply (sort_ordered _ (Spec.key_of sortField)
             (λ a b, Spec.directed sortDirection (Spec.key_compare a b))
             (Spec.sortable sortField)).
    - intros a b. apply compareItems_keys.
    - by apply titled_sortable.
    - by apply StronglySorted_filter. }
  rewrite (view_filter _ _ _ _ _ _ Ht' Hs'). f_equal.
  apply list_filter_filter_l. tauto.
Qed.

Lemma view_of_view_witness :
  ViewSpec.titled ViewEx.shelf
  ∧ sortedAndFilteredItems ViewEx.shelf "title" "asc" "All" "APP"
    = Ok [Ex.Apple; Ex.apple]
  ∧ sortedAndFilteredItems [Ex.Apple; Ex.apple] "title" "asc" "All" "APP"
    = Ok [Ex.Apple; Ex.apple].
Proof.
  assert (H : ViewSpec.titled ViewEx.shelf) by (repeat constructor).
  assert (E : sortedAndFilteredItems ViewEx.shelf "title" "asc" "All" "APP"
              = Ok [Ex.Apple; Ex.apple]) by (vm_compute; reflexivity).
  split; [exact H |]. split; [exact E |].
  exact (view_of_view ViewEx.shelf _ "title" "asc" "All" "APP" H E).
Defined.

(** *** The sort direction button *)

Lemma directed_toggle (d : string) (c : comparison) :
  Spec.directed (toggleSortDirection d) c = CompOpp (Spec.directed d c).
Proof.
  unfold Spec.directed, toggleSortDirection.
  destruct (String.eqb_spec d "asc") as [-> | Hd].
  - rewrite decide_False by discriminate. by rewrite decide_True.
  - rewrite decide_True by reflexivity. rewrite decide_False by exact Hd.
    by rewrite CompOpp_involutive.
Qed.

Lemma in_order_toggle (sortField d : string) (a b : obj) :
  Spec.in_order sortField (toggleSortDirection d) a b
  ↔ Spec.in_order sortField d b a.
Proof.
  unfold Spec.in_order.
  rewrite directed_toggle, CompOpp_not_Gt, (directed_antisym d (Spec.key_of sortField a)).
  destruct (Spec.directed d _); simpl; split; congruence.
Qed.

Lemma StronglySorted_impl {A : Type} (R R' : A → A → Prop) (l : list A) :
  (∀ a b, R a b → R' a b) → StronglySorted R l → StronglySorted R' l.
Proof.
  intros HR. induction 1 as [| x l Hs IH Hx]; constructor; [exact IH |].
  eapply Forall_impl; [exact Hx |]. intros y. apply HR.
Qed.

Lemma StronglySorted_reverse {A : Type} (R : A → A → Prop) (l : list A) :
  StronglySorted R l → StronglySorted (flip R) (reverse l).
Proof.
  induction 1 as [| x l Hs IH Hx]; [constructor |].
  rewrite reverse_cons. apply StronglySorted_app. split; [| split].
  - intros y z Hy Hz. apply list_elem_of_singleton in Hz as ->.
    rewrite elem_of_reverse in Hy. rewrite Forall_forall in Hx.
    unfold flip. by apply Hx.
  - exact IH.
  - repeat constructor.
Qed.

Lemma key_inj_on {K : Type} (key : obj → K) (l : list obj) (x y : obj) :
  NoDup (key <$> l) → x ∈ l → y ∈ l → key x = key y → x = y.
Proof.
  induction l as [| z l IH]; intros Hnd Hx Hy Hk; [by apply elem_of_nil in Hx |].
  rewrite fmap_cons in Hnd. apply NoDup_cons in Hnd as [Hz Hnd].
  apply elem_of_cons in Hx as [-> | Hx]; apply elem_of_cons in Hy as [-> | Hy].
  - reflexivity.
  - exfalso. apply Hz. rewrite Hk. by apply list_elem_of_fmap_2.
  - exfalso. apply Hz. rewrite <- Hk. by apply list_elem_of_fmap_2.
  - by apply IH.
Qed.

(** X5: the sort button exchanges the two directions, and when the keys
    are read as the code reads them (under a numeric sort field, values
    that are numbers or text denoting an integer, of magnitude at most
    2^53, or no number at all) and no two items have the same sort key, the
    collection sorted in the toggled direction is the reverse of the
    collection sorted in the current one. *)
Theorem toggle_reverses (items out : list obj) (sortField sortDirection : string) :
  Forall (Spec.sortable sortField) items →
  Forall (Spec.modelled_key sortField) items →
  NoDup (Spec.key_of sortField <$> items) →
  sorted items sortField sortDirection = Ok out →
  sorted items sortField (toggleSortDirection sortDirection) = Ok (reverse out)
  ∧ toggleSortDirection (toggleSortDirection "asc") = "asc"%string
  ∧ toggleSortDirection (toggleSortDirection "desc") = "desc"%string.
Proof.
  intros Hall _ Hnd Hout. split; [| split; reflexivity].
  destruct (sorted_placed items sortField sortDirection Hall)
    as (s & Hs & Hperm & Hsort & _).
  rewrite Hs in Hout. injection Hout as <-.
  destruct (sorted_placed items sortField (toggleSortDirection sortDirection) Hall)
    as (t & Ht & Hperm' & Hsort' & _).
  rewrite Ht. f_equal.
  apply (StronglySorted_unique_strong
           (Spec.in_order sortField (toggleSortDirection sortDirection))).
  - intros x y Hx Hy Hxy Hyx.
    apply (key_inj_on (Spec.key_of sortField) items).
    + exact Hnd.
    + by rewrite <- Hperm'.
    + rewrite elem_of_reverse in Hy. by rewrite <- Hperm.
    + apply (directed_eq (toggleSortDirection sortDirection)).
      unfold Spec.in_order in Hxy, Hyx.
      rewrite (directed_antisym _ (Spec.key_of sortField x)) in Hyx.
      destruct (Spec.directed _ (Spec.key_compare (Spec.key_of sortField x) _));
        simpl in *; congruence.
  - exact Hsort'.
  - apply (StronglySorted_impl (flip (Spec.in_order sortField sortDirection))).
    + intros a b H. by apply in_order_toggle.
    + by apply StronglySorted_reverse.
  - by rewrite Hperm', reverse_Permutation, Hperm.
Qed.

Lemma toggle_reverses_witness :
  Forall (Spec.sortable "lastUpdated") [ViewEx.stamped5; ViewEx.stamped7]
  ∧ Forall (Spec.modelled_key "lastUpdated") [ViewEx.stamped5; ViewEx.stamped7]
  ∧ NoDup (Spec.key_of "lastUpdated" <$> [ViewEx.stamped5; ViewEx.stamped7])
  ∧ sorted [ViewEx.stamped5; ViewEx.stamped7] "lastUpdated" "desc"
    = Ok [ViewEx.stamped7; ViewEx.stamped5]
  ∧ sorted [ViewEx.stamped5; ViewEx.stamped7] "lastUpdated" (toggleSortDirection "desc")
    = Ok (reverse [ViewEx.stamped7; ViewEx.stamped5]).
Proof.
  assert (Hs : Forall (Spec.sortable "lastUpdated") [ViewEx.stamped5; ViewEx.stamped7])
    by (repeat constructor; discriminate).
  assert (Hm : Forall (Spec.modelled_key "lastUpdated")
                 [ViewEx.stamped5; ViewEx.stamped7])
    by (repeat constructor; intros _; reflexivity).
  assert (Hn : NoDup (Spec.key_of "lastUpdated" <$> [ViewEx.stamped5; ViewEx.stamped7])).
  { vm_compute. apply NoDup_cons. split; [| apply NoDup_singleton].
    intros H. apply list_elem_of_singleton in H. discriminate H. }
  assert (E : sorted [ViewEx.stamped5; ViewEx.stamped7] "lastUpdated" "desc"
              = Ok [ViewEx.stamped7; ViewEx.stamped5]) by (vm_compute; reflexivity).
  split; [exact Hs |]. split; [exact Hm |]. split; [exact Hn |].
  split; [exact E |].
  exact (proj1 (toggle_reverses _ _ "lastUpdated" "desc" Hs Hm Hn E)).
Defined.

(** With two items of one key the reverse is not what the toggled sort
    gives: the two keep their input order in both directions. *)
Example toggle_keeps_ties :
  sorted [Ex.Apple; Ex.apple] "title" "asc" = Ok [Ex.Apple; Ex.apple]
  ∧ sorted [Ex.Apple; Ex.apple] "title" (toggleSortDirection "asc")
    = Ok [Ex.Apple; Ex.apple].
Proof. split; vm_compute; reflexivity. Qed.

(** *** The default order: most recently updated first *)

(** X6: once an item is advanced at a time [now], an integer of magnitude
    at most 2^53, later than the lastUpdated stamp of every other item,
    these stamps being modelled values (numbers, or text that denotes an
    integer of magnitude at most 2^53 or no number at all), the collection
    sorted by lastUpdated in direction desc (the order the page opens with)
    starts with the advanced item. *)
Theorem advanced_item_first
    (item : obj) (others items : list obj) (delta now : Z) :
  items ≡ₚ advance item delta now :: others →
  Spec.safe now →
  Forall (λ y, modelled (get y "lastUpdated") = true
               ∧ ∃ t, Spec.number_of (get y "lastUpdated") = Fin t ∧ t < now)
    others →
  ∃ rest, sorted items "lastUpdated" "desc" = Ok (advance item delta now :: rest).
Proof.
  intros Hitems _ Hothers.
  assert (Hall : Forall (Spec.sortable "lastUpdated") items)
    by (apply Forall_forall; intros y _ H; discriminate H).
  destruct (sorted_placed items "lastUpdated" "desc" Hall)
    as (s & Hs & Hperm & Hsort & _).
  rewrite Hs. set (x := advance item delta now) in *.
  assert (Hkx : Spec.key_of "lastUpdated" x = Spec.KNumber (Fin now)).
  { unfold Spec.key_of. rewrite decide_False by discriminate. f_equal.
    unfold x, advance. rewrite get_insert_eq.
    rewrite <- Number_or_0_number_of. apply Number_or_0_num. }
  destruct s as [| h s].
  { rewrite <- Hperm in Hitems. by apply Permutation_nil_cons in Hitems. }
  exists s. do 2 f_equal.
  assert (Hh : h ∈ x :: others)
    by (rewrite <- Hitems, <- Hperm; apply list_elem_of_here).
  apply elem_of_cons in Hh as [Hh | Hh]; [exact Hh |].
  assert (Hx : x ∈ h :: s)
    by (rewrite Hperm, Hitems; apply list_elem_of_here).
  apply elem_of_cons in Hx as [Hx | Hx]; [by symmetry |].
  apply StronglySorted_inv in Hsort as [_ Hsort].
  rewrite Forall_forall in Hsort, Hothers.
  specialize (Hsort x Hx). destruct (Hothers h Hh) as (_ & t & Ht & Hlt).
  exfalso. apply Hsort. unfold Spec.key_of at 1.
  rewrite decide_False by discriminate. rewrite Ht, Hkx.
  unfold Spec.directed. rewrite decide_False by discriminate. simpl.
  by rewrite (proj2 (Z.compare_lt_iff t now) Hlt).
Qed.

Lemma advanced_item_first_witness :
  [ViewEx.stamped5; advance ViewEx.reading3 1 9; ViewEx.stamped7]
    ≡ₚ advance ViewEx.reading3 1 9 :: [ViewEx.stamped5; ViewEx.stamped7]
  ∧ Spec.safe 9
  ∧ Forall (λ y, modelled (get y "lastUpdated") = true
                 ∧ ∃ t, Spec.number_of (get y "lastUpdated") = Fin t ∧ t < 9)
      [ViewEx.stamped5; ViewEx.stamped7]
  ∧ ∃ rest,
      sorted [ViewEx.stamped5; advance ViewEx.reading3 1 9; ViewEx.stamped7]
        "lastUpdated" "desc"
      = Ok (advance ViewEx.reading3 1 9 :: rest).
Proof.
  assert (Hp : [ViewEx.stamped5; advance ViewEx.reading3 1 9; ViewEx.stamped7]
                 ≡ₚ advance ViewEx.reading3 1 9 :: [ViewEx.stamped5; ViewEx.stamped7])
    by apply Permutation_swap.
  assert (Hn : Spec.safe 9) by (unfold Spec.safe; lia).
  assert (Ho : Forall (λ y, modelled (get y "lastUpdated") = true
                            ∧ ∃ t, Spec.number_of (get y "lastUpdated") = Fin t
                                   ∧ t < 9)
                 [ViewEx.stamped5; ViewEx.stamped7]).
  { constructor; [| constructor; [| constructor]];
      (split; [reflexivity |]); [exists 5 | exists 7];
      split; (reflexivity || lia). }
  split; [exact Hp |]. split; [exact Hn |]. split; [exact Ho |].
  exact (advanced_item_first ViewEx.reading3 _ _ 1 9 Hp Hn Ho).
Defined.

(** *** Items in the form the snapshot callback gives them *)

Lemma Number_or_0_fixed (n : num) : n ≠ NaN → Number_or_0 (VNum n) = n.
Proof.
  unfold Number_or_0. destruct n as [| |z|]; simpl; try congruence.
  intros _. destruct (Z.eqb_spec z 0); simpl; congruence.
Qed.

Lemma js_or_idem (a b : val) : js_or (js_or a b) b = js_or a b.
Proof.
  unfold js_or. destruct (ToBoolean a) eqn:Ea; [by rewrite Ea |].
  by destruct (ToBoolean b).
Qed.

Lemma get_lookup (o : obj) (k : string) (v : val) : o !! k = Some v → get o k = v.
Proof. unfold get. by intros ->. Qed.

Lemma trackingItem_lookup (doc : document) :
  trackingItem doc !! "currentChapter"%string
  = Some (VNum (Number_or_0 (get (doc_data doc) "currentChapter")))
  ∧ trackingItem doc !! "totalChapters"%string
    = Some (VNum (Number_or_0 (get (doc_data doc) "totalChapters")))
  ∧ trackingItem doc !! "rating"%string
    = Some (VNum (Number_or_0 (get (doc_data doc) "rating")))
  ∧ trackingItem doc !! "notes"%string
    = Some (js_or (get (doc_data doc) "notes") (VStr ""))
  ∧ trackingItem doc !! "lastUpdated"%string
    = Some (js_or (get (doc_data doc) "lastUpdated") (VNum (Fin 0))).
Proof.
  unfold trackingItem.
  repeat split;
    repeat (rewrite lookup_insert_ne by discriminate);
    apply lookup_insert_eq.
Qed.

Lemma trackingItem_numeric_lookup (doc : document) (k : string) :
  k ∈ Spec.numeric_fields →
  trackingItem doc !! k = Some (VNum (Number_or_0 (get (doc_data doc) k))).
Proof.
  destruct (trackingItem_lookup doc) as (Hc & Ht & Hr & _).
  unfold Spec.numeric_fields. rewrite !elem_of_cons, elem_of_nil.
  intros [-> | [-> | [-> | []]]]; assumption.
Qed.

Lemma trackingItem_id (doc : document) : is_Some (trackingItem doc !! "id"%string).
Proof.
  rewrite (trackingItem_other doc _ id_not_normalised), lookup_union.
  rewrite lookup_singleton_eq. destruct (doc_data doc !! "id"%string); eauto.
Qed.

(** The snapshot callback gives normal items. *)
Lemma trackingItem_normal (doc : document) : ViewSpec.normal (trackingItem doc).
Proof.
  destruct (trackingItem_lookup doc) as (_ & _ & _ & Hn & Hl).
  split; [apply trackingItem_id |]. split; [| split].
  - intros k Hk. eexists. split; [by apply trackingItem_numeric_lookup |].
    apply Number_or_0_not_NaN.
  - eexists. split; [exact Hn | apply js_or_idem].
  - eexists. split; [exact Hl | apply js_or_idem].
Qed.

(** A normal item stored as it is and loaded again is the same item. *)
Lemma normal_reload (id : string) (item : obj) :
  ViewSpec.normal item →
  trackingItem {| doc_id := id; doc_data := item |} = item.
Proof.
  intros (Hid & Hnum & (note & Hnote & Enote) & (stamp & Hstamp & Estamp)).
  set (doc := {| doc_id := id; doc_data := item |}).
  destruct (trackingItem_lookup doc) as (_ & _ & _ & Hn & Hl).
  apply map_eq. intros k.
  destruct (decide (k ∈ Spec.numeric_fields)) as [Hk | Hk].
  { rewrite (trackingItem_numeric_lookup doc k Hk).
    destruct (Hnum k Hk) as (n & Hkn & Hnan). simpl.
    by rewrite (get_lookup _ _ _ Hkn), (Number_or_0_fixed n Hnan). }
  destruct (decide (k = "notes"%string)) as [-> | Hk1].
  { rewrite Hn. simpl. by rewrite (get_lookup _ _ _ Hnote), Enote. }
  destruct (decide (k = "lastUpdated"%string)) as [-> | Hk2].
  { rewrite Hl. simpl. by rewrite (get_lookup _ _ _ Hstamp), Estamp. }
  rewrite trackingItem_other.
  - simpl. destruct (item !! k) as [v |] eqn:Ek.
    + by apply lookup_union_Some_l.
    + rewrite lookup_union_r by exact Ek. apply lookup_singleton_ne.
      intros <-. rewrite Ek in Hid. by destruct Hid.
  - unfold Spec.normalised_fields. unfold Spec.numeric_fields in Hk.
    rewrite !not_elem_of_cons in *. tauto.
Qed.

Lemma newChapter_not_NaN (item : obj) (c : num) (delta : Z) :
  get item "currentChapter" = VNum c → c ≠ NaN → newChapter item delta ≠ NaN.
Proof.
  intros Hc Hnan. unfold newChapter, Math_max, js_add. rewrite Hc. simpl.
  destruct c as [| |z|]; simpl; try congruence.
  destruct (0 <? z + delta); discriminate.
Qed.

Lemma js_or_stamp (now : Z) : js_or (VNum (Fin now)) (VNum (Fin 0)) = VNum (Fin now).
Proof.
  unfold js_or. simpl. destruct (Z.eqb_spec now 0); simpl; congruence.
Qed.

(** [handleUpdateChapter] writes a normal item when given one. *)
Lemma advance_normal (item : obj) (delta now : Z) :
  ViewSpec.normal item → ViewSpec.normal (advance item delta now).
Proof.
  intros (Hid & Hnum & Hnote & _). unfold advance.
  split; [| split; [| split]].
  - by rewrite !lookup_insert_ne by discriminate.
  - intros k Hk. pose proof Hk as Hk'.
    unfold Spec.numeric_fields in Hk'. rewrite !elem_of_cons, elem_of_nil in Hk'.
    destruct Hk' as [-> | [-> | [-> | []]]].
    + destruct (Hnum _ Hk) as (c & Hc & Hnan).
      rewrite !lookup_insert_ne by discriminate. rewrite lookup_insert_eq.
      eexists. split; [reflexivity |].
      apply (newChapter_not_NaN item c); [by apply get_lookup | exact Hnan].
    + rewrite !lookup_insert_ne by discriminate. by apply Hnum.
    + rewrite !lookup_insert_ne by discriminate. by apply Hnum.
  - by rewrite !lookup_insert_ne by discriminate.
  - rewrite lookup_insert_eq. eexists. split; [reflexivity | apply js_or_stamp].
Qed.

(** X7: the snapshot callback is idempotent: an item it produced, stored
    as it is under any document id and loaded again, is the same item. *)
Theorem trackingItem_idempotent (id : string) (doc : document) :
  trackingItem {| doc_id := id; doc_data := trackingItem doc |} = trackingItem doc.
Proof. apply normal_reload, trackingItem_normal. Qed.

(** X8: what handleUpdateChapter writes for an item of the collection is
    read back unchanged by the snapshot callback: the written document
    holds the new chapter as a number other than NaN, and apart from
    currentChapter, status and lastUpdated it holds what the item held. *)
Theorem advance_read_back (id : string) (doc : document) (delta now : Z) :
  trackingItem {| doc_id := id; doc_data := advance (trackingItem doc) delta now |}
  = advance (trackingItem doc) delta now
  ∧ (∃ n, get (advance (trackingItem doc) delta now) "currentChapter" = VNum n
          ∧ n ≠ NaN)
  ∧ ∀ k, k ∉ ["currentChapter"; "status"; "lastUpdated"]%string →
         advance (trackingItem doc) delta now !! k = trackingItem doc !! k.
Proof.
  split; [| split].
  - apply normal_reload, advance_normal, trackingItem_normal.
  - exists (newChapter (trackingItem doc) delta).
    split; [apply advance_currentChapter |].
    apply (newChapter_not_NaN _ _ _ (trackingItem_currentChapter doc)).
    apply Number_or_0_not_NaN.
  - intros k Hk. rewrite !not_elem_of_cons in Hk. unfold advance.
    rewrite !lookup_insert_ne; [reflexivity | | |]; intros <-; tauto.
Qed.

(** *** Status and progress *)

Lemma num_eqb_0 (n : num) : num_eqb n (Fin 0) = true → n = Fin 0.
Proof.
  destruct n as [| |z|]; simpl; try discriminate.
  intros H. apply Z.eqb_eq in H. by subst.
Qed.

(** X9: the status the handlers store agrees with the progress. After
    handleUpdateChapter on an item whose chapter is a number other than
    NaN, a stored status PlanToRead comes with chapter 0 and a stored status
    Reading with a chapter above 0; after handleSaveEdit, a stored status
    PlanToRead comes with a chapter that is not above 0. *)
Theorem stored_status_progress
    (item isEditing updatedData : obj) (c : num) (delta now : Z) :
  get item "currentChapter" = VNum c → c ≠ NaN →
  (get (advance item delta now) "status" = Status.PLAN_TO_READ →
   get (advance item delta now) "currentChapter" = VNum (Fin 0))
  ∧ (get (advance item delta now) "status" = Status.READING →
     ∃ n, get (advance item delta now) "currentChapter" = VNum n
          ∧ num_gtb n (Fin 0) = true)
  ∧ (get (applyEdit isEditing updatedData now) "status" = Status.PLAN_TO_READ →
     ∃ n, get (applyEdit isEditing updatedData now) "currentChapter" = VNum n
          ∧ num_gtb n (Fin 0) = false).
Proof.
  intros Hc Hnan.
  pose proof (newChapter_non_negative item c delta Hc Hnan) as Hpos.
  rewrite !advance_status, !advance_currentChapter, applyEdit_status,
    applyEdit_currentChapter.
  unfold Spec.non_negative, num_geb in Hpos.
  unfold newStatus. set (n := newChapter item delta) in *.
  unfold num_gtb.
  split; [| split].
  - destruct (num_ltb (Fin 0) n) eqn:Hgt; simpl in Hpos.
    + destruct (strict_eq (get item "status") Status.PLAN_TO_READ) eqn:Hs; simpl;
        [discriminate |].
      destruct (_ && _); [discriminate |].
      destruct (_ && _); [discriminate |].
      destruct (num_eqb n (Fin 0)) eqn:He;
        [intros _; f_equal; by apply num_eqb_0 |]. simpl.
      intros H. rewrite H in Hs. discriminate Hs.
    + intros _. f_equal. by apply num_eqb_0.
  - intros H. exists n. split; [reflexivity |].
    destruct (num_ltb (Fin 0) n) eqn:Hgt; [reflexivity |].
    simpl in Hpos. rewrite Hpos in H. simpl in H.
    destruct (_ && _); [discriminate |].
    destruct (strict_eq (get item "status") Status.READING) eqn:Hs;
      [discriminate |].
    rewrite H in Hs. discriminate Hs.
  - intros H. eexists. split; [reflexivity |].
    unfold editStatus, num_gtb in H.
    destruct (num_ltb (Fin 0) (Number_or_0 (get updatedData "currentChapter")));
      [| reflexivity].
    rewrite andb_true_r in H.
    destruct (strict_eq (get updatedData "status") Status.PLAN_TO_READ) eqn:Hs;
      [discriminate |].
    destruct (_ && _); [discriminate |].
    rewrite H in Hs. discriminate Hs.
Qed.

Lemma stored_status_progress_witness :
  get Ex.planned "currentChapter" = VNum (Fin 0)
  ∧ Fin 0 ≠ NaN
  ∧ get (advance Ex.planned 1 1000) "status" = Status.READING
  ∧ ∃ n, get (advance Ex.planned 1 1000) "currentChapter" = VNum n
         ∧ num_gtb n (Fin 0) = true.
Proof.
  assert (Hn : Fin 0 ≠ NaN) by discriminate.
  split; [reflexivity |]. split; [exact Hn |]. split; [reflexivity |].
  exact (proj1 (proj2 (stored_status_progress Ex.planned ∅ ∅ (Fin 0) 1 1000
                         eq_refl Hn)) eq_refl).
Defined.

(** *** Adding twice *)

(** X10: once the record written by handleAddItem for a candidate is in
    the collection, under whatever document id, adding the same candidate
    again writes nothing, for a candidate whose catalog identifier is a
    primitive value other than NaN. *)
Theorem added_once (s : session) (items : list obj) (r : apiResult)
    (id : string) (now later : Z) :
  Spec.identifier (mal_id r) →
  trackingItem {| doc_id := id; doc_data := newItem r now |} ∈ items →
  handleAddItem s items r later = [].
Proof.
  intros Hid Hin. unfold handleAddItem.
  destruct (connected s); [simpl | reflexivity].
  assert (Htracked : isAlreadyTracked items r = true).
  { unfold isAlreadyTracked. apply existsb_exists. eexists.
    split; [apply list_elem_of_In, Hin |].
    apply (strict_eq_identifier _ _ Hid). apply get_lookup.
    rewrite trackingItem_other.
    - by apply lookup_union_Some_l.
    - unfold Spec.normalised_fields. rewrite !not_elem_of_cons.
      repeat split; [discriminate .. | apply not_elem_of_nil]. }
  by rewrite Htracked.
Qed.

Lemma added_once_witness :
  Spec.identifier (mal_id Ex.candidate7)
  ∧ trackingItem {| doc_id := "d7"; doc_data := newItem Ex.candidate7 1000 |}
    ∈ [trackingItem {| doc_id := "d7"; doc_data := newItem Ex.candidate7 1000 |}]
  ∧ handleAddItem Ex.connected_session
      [trackingItem {| doc_id := "d7"; doc_data := newItem Ex.candidate7 1000 |}]
      Ex.candidate7 2000 = [].
Proof.
  assert (H : trackingItem {| doc_id := "d7"; doc_data := newItem Ex.candidate7 1000 |}
              ∈ [trackingItem {| doc_id := "d7"; doc_data := newItem Ex.candidate7 1000 |}])
    by apply list_elem_of_here.
  split; [exact I |]. split; [exact H |].
  exact (added_once Ex.connected_session _ Ex.candidate7 "d7" 1000 2000 I H).
Defined.

(** A candidate whose identifier is NaN is added again: NaN === NaN is
    false. *)
Example added_again_NaN :
  let r := {| mal_id := VNum NaN; title := VStr "X"; type := VUndef;
              chapters := VUndef; image_url := VUndef |} in
  handleAddItem Ex.connected_session
    [trackingItem {| doc_id := "d7"; doc_data := newItem r 1000 |}] r 2000
  = [addDoc (newItem r 2000)].
Proof. reflexivity. Qed.

(** *** The -1 button of the card *)

(** X11: for an item with an integer chapter c of magnitude at most 2^53,
    the -1 button is disabled exactly when c <= 0; when it is enabled,
    handleUpdateChapter with -1 stores c - 1, so the floor at zero is never
    what decides; and after +1 and then -1 an item with c >= 0, c + 1 being
    at most 2^53 too, has its chapter c again. *)
Theorem decrement_button (item : obj) (c now later : Z) :
  get item "currentChapter" = VNum (Fin c) →
  Spec.safe c →
  (decrementDisabled item = true ↔ c ≤ 0)
  ∧ (decrementDisabled item = false →
     get (advance item (-1) now) "currentChapter" = VNum (Fin (c - 1))
     ∧ 0 ≤ c - 1)
  ∧ (0 ≤ c → Spec.safe (c + 1) →
     get (advance (advance item 1 now) (-1) later) "currentChapter" = VNum (Fin c)).
Proof.
  intros Hc _.
  assert (Hd : decrementDisabled item = true ↔ c ≤ 0).
  { unfold decrementDisabled, js_le. rewrite Hc. simpl.
    rewrite orb_true_iff, Z.ltb_lt, Z.eqb_eq. lia. }
  split; [exact Hd |]. split.
  - intros Hen. assert (0 < c) by (destruct (decrementDisabled item); [discriminate | lia]).
    rewrite advance_currentChapter, (newChapter_int _ _ _ Hc).
    split; [do 2 f_equal |]; lia.
  - intros Hpos _.
    rewrite advance_currentChapter.
    rewrite (newChapter_int _ (Z.max 0 (c + 1)) (-1)).
    + do 2 f_equal. lia.
    + by rewrite advance_currentChapter, (newChapter_int _ _ _ Hc).
Qed.

Lemma decrement_button_witness :
  get ViewEx.reading3 "currentChapter" = VNum (Fin 3)
  ∧ Spec.safe 3
  ∧ decrementDisabled ViewEx.reading3 = false
  ∧ get (advance ViewEx.reading3 (-1) 1000) "currentChapter" = VNum (Fin (3 - 1))
  ∧ 0 ≤ 3 - 1.
Proof.
  assert (Hs : Spec.safe 3) by (unfold Spec.safe; lia).
  split; [reflexivity |]. split; [exact Hs |]. split; [reflexivity |].
  exact (proj1 (proj2 (decrement_button ViewEx.reading3 3 1000 2000 eq_refl Hs))
           eq_refl).
Defined.

(** *** The stars *)

Lemma starValues_range (starValue : Z) :
  starValue ∈ starValues ↔ 1 ≤ starValue ≤ 10.
Proof.
  unfold starValues, totalStars. rewrite list_elem_of_In, in_map_iff. split.
  - intros (i & <- & Hi). apply in_seq in Hi. lia.
  - intros H. exists (Z.to_nat (starValue - 1)). split; [lia |].
    apply in_seq. lia.
Qed.

Lemma starClick_cases (rating : val) (starValue : Z) :
  starClick rating starValue
  = if decide (rating = VNum (Fin starValue)) then VNum (Fin 0)
    else VNum (Fin starValue).
Proof.
  unfold starClick. destruct rating as [| |b|[| |z|]|s|p];
    try (by rewrite decide_False by discriminate).
  simpl. destruct (Z.eqb_spec starValue z) as [-> | Hne].
  - by rewrite decide_True.
  - rewrite decide_False; [reflexivity | congruence].
Qed.

(** X12: a click on one of the ten stars sets the rating to that star's
    value, or to 0 when that value is the rating already; either way the
    rating is an integer of [0,10], and handleSaveEdit stores exactly it:
    a rating chosen with the stars is stored within [0,10], whatever the
    item's rating was before. *)
Theorem star_click_stored
    (m : editModal) (item : obj) (starValue now : Z) :
  starValue ∈ starValues →
  (currentRating (clickStar m starValue) = VNum (Fin starValue)
   ∨ (currentRating m = VNum (Fin starValue)
      ∧ currentRating (clickStar m starValue) = VNum (Fin 0)))
  ∧ ∃ z, get (applyEdit item (handleSubmit (clickStar m starValue)) now) "rating"
         = VNum (Fin z)
         ∧ currentRating (clickStar m starValue) = VNum (Fin z)
         ∧ 0 ≤ z ≤ 10.
Proof.
  intros Hv. apply starValues_range in Hv.
  assert (Hform : get (handleSubmit (clickStar m starValue)) "rating"
                  = currentRating (clickStar m starValue))
    by (unfold handleSubmit; apply get_insert_eq).
  rewrite applyEdit_rating, Hform. simpl.
  rewrite starClick_cases. case_decide as Hr.
  - split; [right; by split |].
    exists 0. split; [reflexivity |]. split; [reflexivity | lia].
  - split; [by left |].
    exists starValue. split; [by rewrite Number_or_0_num |].
    split; [reflexivity | lia].
Qed.

Lemma star_click_stored_witness :
  7 ∈ starValues
  ∧ ∃ z, get (applyEdit Ex.planned
                (handleSubmit (clickStar (openEditModal Ex.planned) 7)) 1000) "rating"
         = VNum (Fin z)
         ∧ currentRating (clickStar (openEditModal Ex.planned) 7) = VNum (Fin z)
         ∧ 0 ≤ z ≤ 10.
Proof.
  assert (H : 7 ∈ starValues) by (apply starValues_range; lia).
  split; [exact H |].
  exact (proj2 (star_click_stored (openEditModal Ex.planned) Ex.planned 7 1000 H)).
Defined.

(** X13: with no star hovered and an integer rating r of [0,10], exactly
    the first r of the ten stars are lit. *)
Theorem stars_lit (r : Z) :
  0 ≤ r ≤ 10 →
  List.filter (starLit (VNum (Fin 0)) (VNum (Fin r))) starValues
  = map Z.of_nat (seq 1 (Z.to_nat r)).
Proof.
  intros Hr.
  assert (H : r = 0 ∨ r = 1 ∨ r = 2 ∨ r = 3 ∨ r = 4 ∨ r = 5 ∨ r = 6 ∨ r = 7
              ∨ r = 8 ∨ r = 9 ∨ r = 10) by lia.
  repeat destruct H as [-> | H]; try subst r; reflexivity.
Qed.

Lemma stars_lit_witness :
  0 ≤ 3 ≤ 10
  ∧ List.filter (starLit (VNum (Fin 0)) (VNum (Fin 3))) starValues = [1; 2; 3].
Proof.
  assert (H : 0 ≤ 3 ≤ 10) by lia.
  split; [exact H | exact (stars_lit 3 H)].
Defined.

(** *** The edit form *)

Lemma normal_rating (item : obj) :
  ViewSpec.normal item →
  item !! "rating"%string = Some (js_or (get item "rating") (VNum (Fin 0))).
Proof.
  intros (_ & Hnum & _).
  destruct (Hnum "rating"%string) as (n & Hn & Hnan).
  { unfold Spec.numeric_fields. rewrite !elem_of_cons. tauto. }
  rewrite (get_lookup _ _ _ Hn), Hn. f_equal. unfold js_or. simpl.
  destruct n as [| |z|]; simpl; try congruence.
  destruct (Z.eqb_spec z 0); simpl; congruence.
Qed.

Lemma normal_numeric_id (item : obj) (k : string) :
  ViewSpec.normal item → k ∈ Spec.numeric_fields →
  <[k := VNum (Number_or_0 (get item k))]> item = item.
Proof.
  intros (_ & Hnum & _) Hk. destruct (Hnum k Hk) as (n & Hn & Hnan).
  apply insert_id. by rewrite (get_lookup _ _ _ Hn), (Number_or_0_fixed n Hnan).
Qed.

(** X14: saving the form of an item of the collection without touching it
    changes three properties at most: the status is derived again by the
    rule of handleSaveEdit, lastUpdated is the time of the save, and
    imageUrl is the item's when truthy and the empty string otherwise;
    every other property, the rating included, is written as the item
    holds it. *)
Theorem untouched_form_saved (doc : document) (now : Z) :
  applyEdit (trackingItem doc) (handleSubmit (openEditModal (trackingItem doc))) now
  = <["imageUrl" := js_or (get (trackingItem doc) "imageUrl") (VStr "")]>
      (<["lastUpdated" := VNum (Fin now)]>
         (<["status" := editStatus (trackingItem doc)]> (trackingItem doc))).
Proof.
  pose proof (trackingItem_normal doc) as Hn.
  set (item := trackingItem doc) in *.
  assert (Hform : handleSubmit (openEditModal item) = item)
    by (unfold handleSubmit, openEditModal; simpl;
        apply insert_id; symmetry; symmetry; by apply normal_rating).
  rewrite Hform. unfold applyEdit.
  rewrite (idemp (∪) item).
  rewrite (normal_numeric_id item "currentChapter" Hn)
    by (unfold Spec.numeric_fields; rewrite !elem_of_cons; tauto).
  rewrite (normal_numeric_id item "totalChapters" Hn)
    by (unfold Spec.numeric_fields; rewrite !elem_of_cons; tauto).
  rewrite (normal_numeric_id item "rating" Hn)
    by (unfold Spec.numeric_fields; rewrite !elem_of_cons; tauto).
  f_equal. get_simpl.
  unfold js_or. destruct (ToBoolean (get item "imageUrl")) eqn:E;
    by rewrite ?E.
Qed.

Lemma act_notes_kept (m : editModal) (a : formAction) :
  ViewSpec.notes_kept (formData m) → ViewSpec.notes_kept (formData (act m a)).
Proof.
  intros Hm. destruct a as [name value | starValue]; simpl; [| exact Hm].
  intros v. destruct (decide (name = "notes"%string)) as [-> | Hne].
  - rewrite lookup_insert_eq. intros [= <-]. unfold js_or. simpl.
    destruct (String.eqb_spec value ""); simpl; congruence.
  - rewrite lookup_insert_ne by exact Hne. apply Hm.
Qed.

Lemma edited_notes_kept (item : obj) (actions : list formAction) :
  ViewSpec.normal item → ViewSpec.notes_kept (handleSubmit (edited item actions)).
Proof.
  intros (_ & _ & (note & Hnote & Enote) & _).
  assert (H0 : ViewSpec.notes_kept (formData (openEditModal item)))
    by (intros v; simpl; rewrite Hnote; by intros [= <-]).
  unfold edited. generalize dependent (openEditModal item).
  induction actions as [| a actions IH]; intros m Hm; simpl.
  - intros v. unfold handleSubmit. rewrite lookup_insert_ne by discriminate. apply Hm.
  - apply IH. by apply act_notes_kept.
Qed.

(** [handleSaveEdit] writes a normal item, for a normal item under edit
    and a form whose notes are kept by their default. *)
Lemma applyEdit_normal (isEditing updatedData : obj) (now : Z) :
  ViewSpec.normal isEditing → ViewSpec.notes_kept updatedData →
  ViewSpec.normal (applyEdit isEditing updatedData now).
Proof.
  intros (Hid & _ & (note & Hnote & Enote) & _) Hkept. unfold applyEdit.
  split; [| split; [| split]].
  - rewrite !lookup_insert_ne by discriminate.
    apply lookup_union_is_Some. by right.
  - intros k Hk. unfold Spec.numeric_fields in Hk.
    rewrite !elem_of_cons, elem_of_nil in Hk.
    destruct Hk as [-> | [-> | [-> | []]]];
      repeat (rewrite lookup_insert_ne by discriminate);
      rewrite lookup_insert_eq; eexists;
      (split; [reflexivity | apply Number_or_0_not_NaN]).
  - rewrite !lookup_insert_ne by discriminate. rewrite lookup_union.
    destruct (updatedData !! "notes"%string) as [v |] eqn:Ev.
    + exists v. rewrite Hnote. split; [reflexivity | by apply Hkept].
    + exists note. rewrite Hnote. split; [reflexivity | exact Enote].
  - rewrite lookup_insert_ne by discriminate. rewrite lookup_insert_eq.
    eexists. split; [reflexivity | apply js_or_stamp].
Qed.

(** X15: whatever the user does in the edit form of an item of the
    collection (any sequence of input changes and star clicks), the
    document handleSaveEdit writes is read back unchanged by the snapshot
    callback: its three numeric fields are stored as numbers, never as the
    strings typed in the inputs. *)
Theorem edit_read_back
    (doc : document) (actions : list formAction) (id : string) (now : Z) :
  trackingItem
    {| doc_id := id;
       doc_data := applyEdit (trackingItem doc)
                     (handleSubmit (edited (trackingItem doc) actions)) now |}
  = applyEdit (trackingItem doc)
      (handleSubmit (edited (trackingItem doc) actions)) now
  ∧ ∀ k, k ∈ Spec.numeric_fields →
      ∃ n, get (applyEdit (trackingItem doc)
                  (handleSubmit (edited (trackingItem doc) actions)) now) k
           = VNum n
           ∧ n ≠ NaN.
Proof.
  pose proof (applyEdit_normal (trackingItem doc)
                (handleSubmit (edited (trackingItem doc) actions)) now
                (trackingItem_normal doc)
                (edited_notes_kept _ actions (trackingItem_normal doc))) as Hn.
  split; [by apply normal_reload |].
  intros k Hk. destruct Hn as (_ & Hnum & _).
  destruct (Hnum k Hk) as (n & Hkn & Hnan).
  exists n. split; [by apply get_lookup | exact Hnan].
Qed.

(** A chapter typed as "12" and a cleared total are stored as the numbers
    12 and 0. *)
Example typed_numbers_stored :
  let form := handleSubmit (edited ViewEx.reading3
                              [Change "currentChapter" "12";
                               Change "totalChapters" ""]) in
  get (applyEdit ViewEx.reading3 form 1000) "currentChapter" = VNum (Fin 12)
  ∧ get (applyEdit ViewEx.reading3 form 1000) "totalChapters" = VNum (Fin 0)
  ∧ get (applyEdit ViewEx.reading3 form 1000) "status" = Status.READING.
Proof. repeat split; vm_compute; reflexivity. Qed.

(** X16: handleSaveEdit never loses the cover: the stored imageUrl is the
    form's when that is truthy, else the edited item's when that is truthy,
    else the empty string; so an item with a truthy imageUrl keeps a truthy
    one whatever the form holds. *)
Theorem applyEdit_keeps_image (isEditing updatedData : obj) (now : Z) :
  get (applyEdit isEditing updatedData now) "imageUrl"
  = (if ToBoolean (get (updatedData ∪ isEditing) "imageUrl")
     then get (updatedData ∪ isEditing) "imageUrl"
     else if ToBoolean (get isEditing "imageUrl")
          then get isEditing "imageUrl" else VStr "")
  ∧ (ToBoolean (get isEditing "imageUrl") = true →
     ToBoolean (get (applyEdit isEditing updatedData now) "imageUrl") = true).
Proof.
  assert (E : get (applyEdit isEditing updatedData now) "imageUrl"
              = js_or (get (updatedData ∪ isEditing) "imageUrl")
                  (js_or (get isEditing "imageUrl") (VStr ""))).
  { unfold applyEdit. rewrite get_insert_eq. by get_simpl. }
  rewrite E. unfold js_or. split; [reflexivity |].
  intros Ho. rewrite Ho.
  by destruct (ToBoolean (get (updatedData ∪ isEditing) "imageUrl")) eqn:Eu.
Qed.

(** *** The end of a search *)

(** X17: a search whose query passes the guard always ends with
    isLoading false; when the request fails (rejection, or a response that
    is not ok) the results are empty and the error is the failure's
    message; when it succeeds the error is cleared and the results are the
    body's list, empty when the body has none. A query that fails the guard
    leaves the previous results and loading flag as they were. *)
Theorem search_ends (st : searchState) (o : fetchOutcome) :
  ((3 ≤ String.length (trim (query st)))%nat →
   isLoading (searchCompleted st o) = false
   ∧ match o with
     | Rejected message =>
         results (searchCompleted st o) = []
         ∧ error (searchCompleted st o) = Some message
     | NotOk statusText =>
         results (searchCompleted st o) = []
         ∧ error (searchCompleted st o) = Some ("API Error: " ++ statusText)%string
     | Body data =>
         results (searchCompleted st o) = default [] data
         ∧ error (searchCompleted st o) = None
     end)
  ∧ ((String.length (trim (query st)) < 3)%nat →
     results (searchCompleted st o) = results st
     ∧ isLoading (searchCompleted st o) = isLoading st
     ∧ error (searchCompleted st o)
       = Some "Please enter at least 3 characters to search."%string).
Proof.
  unfold searchCompleted, handleSearch.
  destruct (Nat.ltb_spec (String.length (trim (query st))) 3); split;
    try (intros; lia); intros _.
  - repeat split.
  - destruct o; repeat split.
Qed.

Lemma search_ends_witness :
  (3 ≤ String.length (trim (query ViewEx.search_abc)))%nat
  ∧ isLoading (searchCompleted ViewEx.search_abc (NotOk "Too Many Requests")) = false
  ∧ results (searchCompleted ViewEx.search_abc (NotOk "Too Many Requests")) = []
  ∧ error (searchCompleted ViewEx.search_abc (NotOk "Too Many Requests"))
    = Some "API Error: Too Many Requests"%string.
Proof.
  assert (H : (3 ≤ String.length (trim (query ViewEx.search_abc)))%nat)
    by (vm_compute; lia).
  split; [exact H |].
  exact (proj1 (search_ends ViewEx.search_abc (NotOk "Too Many Requests")) H).
Defined.

(** *** The collection path *)

Lemma append_length (s t : string) :
  String.length (s ++ t) = (String.length s + String.length t)%nat.
Proof. induction s as [| c s IH]; [reflexivity |]. rewrite append_String. simpl. by rewrite IH. Qed.

Lemma append_inj_r (s s' t : string) : (s ++ t = s' ++ t)%string → s = s'.
Proof.
  revert s'. induction s as [| c s IH]; intros [| c' s'] H.
  - reflexivity.
  - apply (f_equal String.length) in H.
    rewrite append_String in H. simpl in H.
    rewrite ?append_length in H. simpl in H. lia.
  - apply (f_equal String.length) in H.
    rewrite append_String in H. simpl in H.
    rewrite ?append_length in H. simpl in H. lia.
  - rewrite !append_String in H. injection H as -> H. f_equal. by apply IH.
Qed.

(** X18: two users never share a collection: getUserCollectionPath gives
    different paths for different user ids. *)
Theorem getUserCollectionPath_distinct (userId userId' : string) :
  userId ≠ userId' →
  getUserCollectionPath userId ≠ getUserCollectionPath userId'.
Proof.
  unfold getUserCollectionPath. intros Hne H. apply Hne.
  do 3 apply String.app_inj in H. by apply append_inj_r in H.
Qed.

Lemma getUserCollectionPath_distinct_witness :
  "u1"%string ≠ "u2"%string
  ∧ getUserCollectionPath "u1" = "/artifacts/my-github-app/users/u1/tracking_items"%string
  ∧ getUserCollectionPath "u1" ≠ getUserCollectionPath "u2".
Proof.
  assert (H : "u1"%string ≠ "u2"%string) by discriminate.
  split; [exact H |]. split; [reflexivity |].
  exact (getUserCollectionPath_distinct "u1" "u2" H).
Defined.
